(** * proposals/models.py: speakers, completion metrics and query filters

    A shallow embedding of [src/proposals/models.py].  Model instances are
    records of their columns, query sets are lists of rows, exceptions are the
    left summand of a result type, and the two methods that may hit the
    database run in a small monad that counts the queries they issue. *)

From Stdlib Require Import ZArith List String Bool Lia.
From Stdlib Require Import Sorting.Sorted Sorting.Permutation.
Import ListNotations.

Local Open Scope string_scope.
Local Open Scope Z_scope.

(** ** Python values and exceptions *)

(** The values a column or an attribute read by name can hold. *)
Inductive value : Type :=
| VNone
| VBool (b : bool)
| VInt (z : Z)
| VStr (s : string).

(** Python truth value testing, as used by [if getattr(self, f)]. *)
Definition truthy (v : value) : bool :=
  match v with
  | VNone => false
  | VBool b => b
  | VInt z => negb (z =? 0)
  | VStr s => negb (s =? "")%string
  end.

Definition value_eqb (v w : value) : bool :=
  match v, w with
  | VNone, VNone => true
  | VBool a, VBool b => Bool.eqb a b
  | VInt a, VInt b => a =? b
  | VStr a, VStr b => (a =? b)%string
  | _, _ => false
  end.

Definition value_rank (v : value) : Z :=
  match v with VNone => 0 | VBool _ => 1 | VInt _ => 2 | VStr _ => 3 end.

(** The order of an ascending [ORDER BY] column. *)
Definition value_compare (v w : value) : comparison :=
  match v, w with
  | VBool a, VBool b => Bool.compare a b
  | VInt a, VInt b => a ?= b
  | VStr a, VStr b => String.compare a b
  | _, _ => value_rank v ?= value_rank w
  end.

Inductive exn : Type :=
| ValueError (msg : string)
| AttributeError (msg : string)
| IntegrityError (msg : string)
| ZeroDivisionError (msg : string).

Definition result (A : Type) : Type := (exn + A)%type.

Definition Ok {A} (a : A) : result A := inr a.
Definition raise {A} (e : exn) : result A := inl e.

Definition result_bind {A B} (r : result A) (k : A -> result B) : result B :=
  match r with
  | inl e => inl e
  | inr a => k a
  end.

(** Python's [//] on integers: the floor of the quotient. *)
Definition floordiv (a b : Z) : result Z :=
  if b =? 0 then raise (ZeroDivisionError "integer division or modulo by zero")
  else Ok (a / b).

Notation "x <-! r ;; k" := (result_bind r (fun x => k))
  (at level 61, r at next level, right associativity).

(** ** The data model *)

(** The user model lives in another application; only its primary key and the
    two attributes this module reads are kept. *)
Module User.
Record t : Type := { pk : Z; speaker_name : string; email : string }.

(** Django's [Model.__eq__] on two saved instances of one model. *)
Definition __eq__ (self other : t) : bool := pk self =? pk other.
End User.

Module AdditionalSpeaker.

Definition SPEAKING_STATUS_PENDING := "pending".
Definition SPEAKING_STATUS_ACCEPTED := "accepted".
Definition SPEAKING_STATUS_DECLINED := "declined".

Record t : Type := {
  pk : Z;
  user : User.t;
  proposal_type : Z;          (* foreign key to contenttypes.ContentType *)
  proposal_id : Z;
  status : string;
  cancelled : bool
}.

(** A new, unsaved row: [status] and [cancelled] take their defaults. *)
Definition create (pk : Z) (user : User.t) (proposal_type proposal_id : Z) : t :=
  {| pk := pk; user := user; proposal_type := proposal_type;
     proposal_id := proposal_id; status := SPEAKING_STATUS_PENDING;
     cancelled := false |}.

(** The column behind a field name; a foreign key is stored as the key. *)
Definition column (f : string) (self : t) : value :=
  if (f =? "pk")%string then VInt (pk self)
  else if (f =? "id")%string then VInt (pk self)
  else if (f =? "user")%string then VInt (User.pk (user self))
  else if (f =? "proposal_type")%string then VInt (proposal_type self)
  else if (f =? "proposal_id")%string then VInt (proposal_id self)
  else if (f =? "status")%string then VStr (status self)
  else if (f =? "cancelled")%string then VBool (cancelled self)
  else VNone.

Module Meta.
Definition unique_together : list string :=
  ["user"; "proposal_type"; "proposal_id"].
Definition ordering : list string :=
  ["proposal_type"; "proposal_id"; "pk"].
End Meta.

Definition __eq__ (self other : t) : bool := pk self =? pk other.
End AdditionalSpeaker.

(** The two concrete proposal models. *)
Inductive ProposalModel : Type := TalkProposal | TutorialProposal.

Definition ProposalModel_eqb (a b : ProposalModel) : bool :=
  match a, b with
  | TalkProposal, TalkProposal => true
  | TutorialProposal, TutorialProposal => true
  | _, _ => false
  end.

Module AbstractProposal.

(** The columns of a proposal.  [abstract] and [detailed_description] come
    from the [EventInfo] mixin of [core.models], which is text like the
    fields declared here. *)
Record t : Type := {
  concrete_model : ProposalModel;
  pk : Z;
  submitter : User.t;
  abstract : string;
  detailed_description : string;
  outline : string;
  objective : string;
  supplementary : string;
  cancelled : bool;
  accepted : option bool;
  labels : string
}.

(** Django's [Model.__eq__]: same concrete model and same primary key. *)
Definition __eq__ (self other : t) : bool :=
  ProposalModel_eqb (concrete_model self) (concrete_model other)
  && (pk self =? pk other).

(** A proposal object as a caller holds it: the row, and the two attributes
    a caller may have attached to it by annotating or prefetching. *)
Record instance : Type := {
  row : t;
  _additional_speaker_count : option Z;
  _additional_speakers : option (list AdditionalSpeaker.t)
}.

(** The object as a plain lookup returns it, nothing attached. *)
Definition loaded (p : t) : instance :=
  {| row := p; _additional_speaker_count := None;
     _additional_speakers := None |}.

Definition _must_fill_fields : list string :=
  ["abstract"; "objective"; "supplementary";
   "detailed_description"; "outline"].

Definition getattr (self : t) (f : string) : value :=
  if (f =? "abstract")%string then VStr (abstract self)
  else if (f =? "detailed_description")%string then VStr (detailed_description self)
  else if (f =? "outline")%string then VStr (outline self)
  else if (f =? "objective")%string then VStr (objective self)
  else if (f =? "supplementary")%string then VStr (supplementary self)
  else if (f =? "labels")%string then VStr (labels self)
  else if (f =? "cancelled")%string then VBool (cancelled self)
  else if (f =? "accepted")%string then
    match accepted self with Some b => VBool b | None => VNone end
  else if (f =? "pk")%string then VInt (pk self)
  else VNone.

End AbstractProposal.

Module PrimarySpeaker.

Record t : Type := {
  _proposal : option AbstractProposal.t;
  _user : User.t
}.

Definition is_None {A} (o : option A) : bool :=
  match o with None => true | Some _ => false end.

(** [proposal.submitter]; on [None] the attribute does not exist. *)
Definition submitter_of (proposal : option AbstractProposal.t) : result User.t :=
  match proposal with
  | Some p => Ok (AbstractProposal.submitter p)
  | None => raise (AttributeError "'NoneType' object has no attribute 'submitter'")
  end.

(** [user or proposal.submitter]: a model instance is always true, so the
    right operand is evaluated exactly when [user] is [None]. *)
Definition __init__ (proposal : option AbstractProposal.t)
    (user : option User.t) : result t :=
  if is_None proposal && is_None user then
    raise (ValueError "must specify either proposal or user")
  else
    u <-! match user with
          | Some u => Ok u
          | None => submitter_of proposal
          end ;;
    Ok {| _proposal := proposal; _user := u |}.

Definition user (self : t) : User.t := _user self.
Definition proposal (self : t) : option AbstractProposal.t := _proposal self.
Definition cancelled (self : t) : bool := false.
Definition get_status_display (self : t) : string := "Proposal author".

(** [==] on what the [proposal] property returns: [None] equals only
    [None], two proposals compare by [Model.__eq__]. *)
Definition proposal_eq (a b : option AbstractProposal.t) : bool :=
  match a, b with
  | None, None => true
  | Some p, Some q => AbstractProposal.__eq__ p q
  | _, _ => false
  end.

(** [other] is any object found among speakers. *)
Definition __eq__ (self : t) (other : t + AdditionalSpeaker.t) : bool :=
  match other with
  | inl o => User.__eq__ (user self) (user o)
             && proposal_eq (proposal self) (proposal o)
  | inr _ => false
  end.

End PrimarySpeaker.

(** What iterating [speakers] yields. *)
Definition Speaker : Type := (PrimarySpeaker.t + AdditionalSpeaker.t)%type.
Definition Primary (s : PrimarySpeaker.t) : Speaker := inl s.
Definition Additional (a : AdditionalSpeaker.t) : Speaker := inr a.

(** ** The object-relational layer *)

(** A computation that may query the database: it threads the number of
    queries issued so far and may raise. *)
Definition Query (A : Type) : Type := nat -> result A * nat.

Definition ret {A} (a : A) : Query A := fun n => (Ok a, n).

Definition bind {A B} (m : Query A) (k : A -> Query B) : Query B :=
  fun n =>
    match m n with
    | (inl e, n') => (inl e, n')
    | (inr a, n') => k a n'
    end.

Definition lift {A} (r : result A) : Query A := fun n => (r, n).

(** One round trip to the database, answering [a]. *)
Definition execute {A} (a : A) : Query A := fun n => (Ok a, S n).

Notation "x <- m ;; k" := (bind m (fun x => k))
  (at level 61, m at next level, right associativity).

Definition answer {A} (m : Query A) : result A := fst (m 0%nat).
Definition queries {A} (m : Query A) : nat := snd (m 0%nat).

(** [ORDER BY] over the columns named by a model's [Meta.ordering], all
    ascending, as a stable insertion sort. *)
Section OrderBy.
Context {A : Type} (column : string -> A -> value).

Fixpoint rows_compare (ordering : list string) (a b : A) : comparison :=
  match ordering with
  | [] => Eq
  | f :: fs =>
      match value_compare (column f a) (column f b) with
      | Eq => rows_compare fs a b
      | c => c
      end
  end.

Definition row_leb (ordering : list string) (a b : A) : bool :=
  match rows_compare ordering a b with
  | Gt => false
  | _ => true
  end.

Fixpoint insert_sorted (ordering : list string) (a : A) (l : list A) : list A :=
  match l with
  | [] => [a]
  | b :: l' =>
      if row_leb ordering a b then a :: l
      else b :: insert_sorted ordering a l'
  end.

Definition order_by (ordering : list string) (l : list A) : list A :=
  fold_right (insert_sorted ordering) [] l.
End OrderBy.

(** A table with an auto-incremented primary key and the unique constraints
    the storage layer enforces for a model's [Meta.unique_together]. *)
Section Table.
Context {A : Type}.
Variable column : string -> A -> value.
Variable with_pk : Z -> A -> A.
Variable unique_together : list (list string).

Record Table : Type := { rows : list A; next_pk : Z }.

Definition empty_table : Table := {| rows := []; next_pk := 1 |}.

Definition unique_key (group : list string) (a : A) : list value :=
  map (fun f => column f a) group.

Fixpoint key_eqb (k1 k2 : list value) : bool :=
  match k1, k2 with
  | [], [] => true
  | v :: k1', w :: k2' => value_eqb v w && key_eqb k1' k2'
  | _, _ => false
  end.

Definition violates (a : A) (stored : list A) : bool :=
  existsb
    (fun group =>
       existsb (fun b => key_eqb (unique_key group a) (unique_key group b))
               stored)
    unique_together.

(** Modelled from the spec: the storage layer, which is outside this
  module, enforces the uniqueness constraints a model declares and
  surfaces a violation as a conflict fault.  [INSERT]: the row gets the
  next key; a unique constraint that an already stored row would break
  makes the statement fail with [IntegrityError]. *)
Definition insert (a : A) (tbl : Table) : result Table :=
  let a' := with_pk (next_pk tbl) a in
  if violates a' (rows tbl) then
    raise (IntegrityError "duplicate key value violates unique constraint")
  else
    Ok {| rows := rows tbl ++ [a']; next_pk := next_pk tbl + 1 |}.

(** The tables that inserts can build. *)
Inductive reachable : Table -> Prop :=
  | reachable_empty : reachable empty_table
  | reachable_insert a tbl tbl' :
    reachable tbl -> insert a tbl = Ok tbl' -> reachable tbl'.
End Table.

Arguments Table : clear implicits.

Module LLMReview.

Definition STAGE_1 := "S1".
Definition STAGE_2 := "S2".

Record t : Type := {
  pk : Z;
  proposal : Z;               (* foreign key to proposals.TalkProposal *)
  stage : string;
  categories : list string;
  summary : string;
  comment : string;
  translated_summary : string;
  translated_comment : string;
  vote : string;
  created_at : Z;
  stage_diff : string;
  translated_stage_diff : string
}.

Definition column (f : string) (self : t) : value :=
  if (f =? "pk")%string then VInt (pk self)
  else if (f =? "id")%string then VInt (pk self)
  else if (f =? "proposal")%string then VInt (proposal self)
  else if (f =? "stage")%string then VStr (stage self)
  else if (f =? "summary")%string then VStr (summary self)
  else if (f =? "comment")%string then VStr (comment self)
  else if (f =? "translated_summary")%string then VStr (translated_summary self)
  else if (f =? "translated_comment")%string then VStr (translated_comment self)
  else if (f =? "vote")%string then VStr (vote self)
  else if (f =? "created_at")%string then VInt (created_at self)
  else if (f =? "stage_diff")%string then VStr (stage_diff self)
  else if (f =? "translated_stage_diff")%string then VStr (translated_stage_diff self)
  else VNone.

Definition with_pk (n : Z) (self : t) : t :=
  {| pk := n; proposal := proposal self; stage := stage self;
     categories := categories self; summary := summary self;
     comment := comment self;
     translated_summary := translated_summary self;
     translated_comment := translated_comment self; vote := vote self;
     created_at := created_at self; stage_diff := stage_diff self;
     translated_stage_diff := translated_stage_diff self |}.

Module Meta.
Definition unique_together : list (list string) := [["proposal"; "stage"]].
Definition ordering : list string :=
  ["proposal__title"; "stage"; "-created_at"].
End Meta.

Definition save_new : t -> Table t -> result (Table t) :=
  insert column with_pk Meta.unique_together.
End LLMReview.

Module AdditionalSpeakerTable.
Import AdditionalSpeaker.

Definition with_pk (n : Z) (self : t) : t :=
  {| pk := n; user := user self; proposal_type := proposal_type self;
     proposal_id := proposal_id self; status := status self;
     cancelled := cancelled self |}.

(** A flat [unique_together] list declares a single constraint. *)
Definition constraints : list (list string) := [Meta.unique_together].

Definition save_new : t -> Table t -> result (Table t) :=
  insert column with_pk constraints.
End AdditionalSpeakerTable.

(** What the methods below read from the database. *)
Record Database : Type := {
(** [ContentType.objects.get_for_model(model).pk] *)
  contenttypes : ProposalModel -> Z;
  additionalspeaker_table : list AdditionalSpeaker.t
}.

(** A lazy query set of additional speakers: the rows it selects.  Nothing
    is sent to the database until it is iterated or counted. *)
Module SpeakerQuerySet.
Definition t : Type := list AdditionalSpeaker.t.

Definition filter_cancelled (v : bool) (qs : t) : t :=
  filter (fun a => Bool.eqb (AdditionalSpeaker.cancelled a) v) qs.

Definition select_related (f : string) (qs : t) : t := qs.

Definition iterate (qs : t) : Query (list AdditionalSpeaker.t) :=
  execute (order_by AdditionalSpeaker.column AdditionalSpeaker.Meta.ordering qs).

Definition count (qs : t) : Query Z :=
  execute (Z.of_nat (List.length qs)).
End SpeakerQuerySet.

(** The generic relation [additionalspeaker_set] of a proposal. *)
Definition additionalspeaker_set (db : Database) (self : AbstractProposal.t)
  : SpeakerQuerySet.t :=
  filter
    (fun a =>
       (AdditionalSpeaker.proposal_type a
        =? contenttypes db (AbstractProposal.concrete_model self))
       && (AdditionalSpeaker.proposal_id a =? AbstractProposal.pk self))
    (additionalspeaker_table db).

(** ** AbstractProposal: the speaker composite *)

Definition non_cancelled_additionals (db : Database)
    (self : AbstractProposal.t) : SpeakerQuerySet.t :=
  SpeakerQuerySet.select_related "user"
    (SpeakerQuerySet.filter_cancelled false (additionalspeaker_set db self)).

(** The generator, run to exhaustion.  An attribute that was never attached
    raises [AttributeError], which [contextlib.suppress] and the [except]
    clause catch: that is the [None] branch of each [match]. *)
Definition speakers (db : Database) (self : AbstractProposal.instance)
  : Query (list Speaker) :=
  primary <- lift (PrimarySpeaker.__init__ (Some (AbstractProposal.row self)) None) ;;
  let after_count_check : Query (list Speaker) :=
    additionals <-
      match AbstractProposal._additional_speakers self with
      | Some prefetched => ret prefetched
      | None => SpeakerQuerySet.iterate
          (non_cancelled_additionals db (AbstractProposal.row self))
      end ;;
    ret (Primary primary :: map Additional additionals)
  in
  match AbstractProposal._additional_speaker_count self with
  | Some n => if n <? 1 then ret [Primary primary] else after_count_check
  | None => after_count_check
  end.

Definition speaker_count (db : Database) (self : AbstractProposal.instance)
  : Query Z :=
  count <-
    match AbstractProposal._additional_speaker_count self with
    | Some n => ret n
    | None =>
        SpeakerQuerySet.count
          (SpeakerQuerySet.filter_cancelled false
             (additionalspeaker_set db (AbstractProposal.row self)))
    end ;;
  ret (count + 1).

(** ** AbstractProposal: completion metrics *)

Definition must_fill_fields_count (self : AbstractProposal.t) : Z :=
  Z.of_nat (List.length AbstractProposal._must_fill_fields).

(** [sum(1 for f in self._must_fill_fields if getattr(self, f))] *)
Definition finished_fields_count (self : AbstractProposal.t) : Z :=
  fold_left Z.add
    (map (fun _ => 1)
       (filter (fun f => truthy (AbstractProposal.getattr self f))
          AbstractProposal._must_fill_fields))
    0.

Definition finish_percentage (self : AbstractProposal.t) : result Z :=
  floordiv (100 * finished_fields_count self) (must_fill_fields_count self).

Definition unfinished_fields_count (self : AbstractProposal.t) : Z :=
  must_fill_fields_count self - finished_fields_count self.

(** ** ProposalQuerySet *)

Module ProposalQuerySet.

(** A query set of proposals: the rows it returns, in the order the store
    returns them. *)
Definition t : Type := list AbstractProposal.t.

Section Filters.
Variable db : Database.

(** [user.cospeaking_info_set.all()] is defined with the user model,
    outside this module: the co-speaker records the user holds. *)
Variable cospeaking_info_set : User.t -> list AdditionalSpeaker.t.

Definition filter_accepted (self : t) : t :=
  filter
    (fun p =>
       Bool.eqb (AbstractProposal.cancelled p) false
       && match AbstractProposal.accepted p with
          | Some b => Bool.eqb b true
          | None => false
          end)
    self.

(** [Q(submitter=user)] *)
Definition Q_submitter (user : User.t) (p : AbstractProposal.t) : bool :=
  User.pk (AbstractProposal.submitter p) =? User.pk user.

(** [additionalspeaker.id IN (SELECT id FROM ...)] *)
Definition pk_in (a : AdditionalSpeaker.t) (l : list AdditionalSpeaker.t)
  : bool :=
  existsb (fun b => AdditionalSpeaker.pk a =? AdditionalSpeaker.pk b) l.

(** The rows of [proposal LEFT OUTER JOIN additionalspeaker] for one
    proposal: one per related speaker, or a single row of nulls. *)
Definition left_outer_join (p : AbstractProposal.t)
  : list (option AdditionalSpeaker.t) :=
  match additionalspeaker_set db p with
  | [] => [None]
  | related => map Some related
  end.

(** [Q(additionalspeaker_set__in=...)] on a joined row; a null never is
    in a list. *)
Definition Q_cospeaker (user : User.t) (j : option AdditionalSpeaker.t)
  : bool :=
  match j with
  | Some a => pk_in a (cospeaking_info_set user)
  | None => false
  end.

(** [filter(Q | Q)] across the relation keeps one result per joined row
    that passes. *)
Definition filter_viewable (self : t) (user : User.t) : t :=
  flat_map
    (fun p =>
       flat_map
         (fun j =>
            if Q_submitter user p || Q_cospeaker user j then [p] else [])
         (left_outer_join p))
    self.

(** [exclude(Q | Q | Q)]: the condition on the relation becomes
    [id IN (subquery)], so a proposal is dropped when any related
    speaker passes. *)
Definition filter_reviewable (self : t) (user : User.t) : t :=
  filter
    (fun p =>
       negb (Bool.eqb (AbstractProposal.cancelled p) true
             || Q_submitter user p
             || existsb (fun a => pk_in a (cospeaking_info_set user))
                  (additionalspeaker_set db p)))
    self.
End Filters.
End ProposalQuerySet.

(** Modelled from the spec: [cospeaking_info_set] of the user model, which is
    not part of this module, is "the set of co-speaker records associated
    with this user". *)
Definition cospeaking_info_set (db : Database) (user : User.t)
  : list AdditionalSpeaker.t :=
  filter
    (fun a => User.pk (AdditionalSpeaker.user a) =? User.pk user)
    (additionalspeaker_table db).

(** ** What the claims are stated with *)

(** Two user objects stand for the same account. *)
Definition same_user (u v : User.t) : Prop := User.pk u = User.pk v.

(** Two values of the [proposal] property stand for the same proposal: both
    absent, or rows of the same model with the same key. *)
Definition same_proposal (p q : option AbstractProposal.t) : Prop :=
  match p, q with
  | None, None => True
  | Some a, Some b =>
      AbstractProposal.concrete_model a = AbstractProposal.concrete_model b
      /\ AbstractProposal.pk a = AbstractProposal.pk b
  | _, _ => False
  end.

(** 1 when a text field holds a non-empty value, 0 when it is empty. *)
Definition filled (s : string) : Z :=
  match s with
  | EmptyString => 0
  | String _ _ => 1
  end.

(** The proposal was submitted by the user. *)
Definition submitted_by (u : User.t) (p : AbstractProposal.t) : Prop :=
  User.pk (AbstractProposal.submitter p) = User.pk u.

(** The user is linked as a co-speaker of the proposal: one of the
    co-speaker records the user holds is a row of the proposal's
    [additionalspeaker_set]. *)
Definition linked_cospeaker (db : Database)
    (cospeaking : User.t -> list AdditionalSpeaker.t)
    (u : User.t) (p : AbstractProposal.t) : Prop :=
  exists a b,
    In a (additionalspeaker_set db p)
    /\ In b (cospeaking u)
    /\ AdditionalSpeaker.pk a = AdditionalSpeaker.pk b.

(** Two co-speaker rows invite the same user to the same proposal. *)
Definition same_invitation (a b : AdditionalSpeaker.t) : Prop :=
  User.pk (AdditionalSpeaker.user a) = User.pk (AdditionalSpeaker.user b)
  /\ AdditionalSpeaker.proposal_type a = AdditionalSpeaker.proposal_type b
  /\ AdditionalSpeaker.proposal_id a = AdditionalSpeaker.proposal_id b.

(** Two reviews are of the same proposal at the same stage. *)
Definition same_review_slot (a b : LLMReview.t) : Prop :=
  LLMReview.proposal a = LLMReview.proposal b
  /\ LLMReview.stage a = LLMReview.stage b.

(** The stored co-speaker rows for one (user, proposal type, proposal id). *)
Definition invitations_of (user_pk proposal_type proposal_id : Z)
    (l : list AdditionalSpeaker.t) : list AdditionalSpeaker.t :=
  filter
    (fun a =>
       (User.pk (AdditionalSpeaker.user a) =? user_pk)
       && (AdditionalSpeaker.proposal_type a =? proposal_type)
       && (AdditionalSpeaker.proposal_id a =? proposal_id))
    l.

(** The stored reviews for one (proposal, stage). *)
Definition reviews_of (proposal : Z) (stage : string) (l : list LLMReview.t)
  : list LLMReview.t :=
  filter
    (fun r =>
       (LLMReview.proposal r =? proposal)
       && (LLMReview.stage r =? stage)%string)
    l.

(** No two rows of [l] agree on all the columns of a constraint. *)
Definition keys_distinct {A : Type} (column : string -> A -> value)
    (unique_together : list (list string)) (l : list A) : Prop :=
  forall group, In group unique_together ->
    NoDup (map (unique_key column group) l).

(** The members of [A] whose [cancelled] flag is false. *)
Definition non_cancelled (A : list AdditionalSpeaker.t)
  : list AdditionalSpeaker.t :=
  filter (fun a => negb (AdditionalSpeaker.cancelled a)) A.

(** [a] comes no later than [b] by (proposal type, proposal id, key). *)
Definition ordering_le (a b : AdditionalSpeaker.t) : Prop :=
  AdditionalSpeaker.proposal_type a < AdditionalSpeaker.proposal_type b
  \/ (AdditionalSpeaker.proposal_type a = AdditionalSpeaker.proposal_type b
      /\ (AdditionalSpeaker.proposal_id a < AdditionalSpeaker.proposal_id b
          \/ (AdditionalSpeaker.proposal_id a = AdditionalSpeaker.proposal_id b
              /\ AdditionalSpeaker.pk a <= AdditionalSpeaker.pk b))).

(** The primary speaker of a proposal: it wraps the proposal and its
    submitter. *)
Definition primary_of (p : AbstractProposal.t) : PrimarySpeaker.t :=
  {| PrimarySpeaker._proposal := Some p;
     PrimarySpeaker._user := AbstractProposal.submitter p |}.

(** What a caller attached to the object was computed beforehand: it is what
    the lookup it stands for returns. *)
Definition precomputed_ok (db : Database) (self : AbstractProposal.instance)
  : Prop :=
  (forall n,
      AbstractProposal._additional_speaker_count self = Some n ->
      answer (SpeakerQuerySet.count
                (SpeakerQuerySet.filter_cancelled false
                   (additionalspeaker_set db (AbstractProposal.row self))))
      = Ok n)
  /\ (forall l,
         AbstractProposal._additional_speakers self = Some l ->
         answer (SpeakerQuerySet.iterate
                   (non_cancelled_additionals db (AbstractProposal.row self)))
         = Ok l).

(** ** A small conference, to run the definitions on *)

Module Example.

Definition alice : User.t :=
  {| User.pk := 1; User.speaker_name := "Alice"; User.email := "alice@example.org" |}.
Definition bob : User.t :=
  {| User.pk := 2; User.speaker_name := "Bob"; User.email := "bob@example.org" |}.
Definition carol : User.t :=
  {| User.pk := 3; User.speaker_name := "Carol"; User.email := "carol@example.org" |}.
Definition dave : User.t :=
  {| User.pk := 4; User.speaker_name := "Dave"; User.email := "dave@example.org" |}.

Definition proposal (model : ProposalModel) (pk : Z) (submitter : User.t)
    (cancelled : bool) : AbstractProposal.t :=
  {| AbstractProposal.concrete_model := model;
     AbstractProposal.pk := pk;
     AbstractProposal.submitter := submitter;
     AbstractProposal.abstract := "An abstract";
     AbstractProposal.detailed_description := "";
     AbstractProposal.outline := "";
     AbstractProposal.objective := "An objective";
     AbstractProposal.supplementary := "";
     AbstractProposal.cancelled := cancelled;
     AbstractProposal.accepted := None;
     AbstractProposal.labels := "" |}.

(** A cancelled talk of Alice, a talk of Bob, a tutorial of Carol. *)
Definition talk1 : AbstractProposal.t := proposal TalkProposal 1 alice true.
Definition talk2 : AbstractProposal.t := proposal TalkProposal 2 bob false.
Definition tutorial1 : AbstractProposal.t := proposal TutorialProposal 1 carol false.

(** An accepted talk of Dave that was then cancelled, and one that was not. *)
Definition talk3 : AbstractProposal.t :=
  {| AbstractProposal.concrete_model := TalkProposal;
     AbstractProposal.pk := 3;
     AbstractProposal.submitter := dave;
     AbstractProposal.abstract := "An abstract";
     AbstractProposal.detailed_description := "Details";
     AbstractProposal.outline := "An outline";
     AbstractProposal.objective := "An objective";
     AbstractProposal.supplementary := "";
     AbstractProposal.cancelled := true;
     AbstractProposal.accepted := Some true;
     AbstractProposal.labels := "" |}.

Definition talk4 : AbstractProposal.t :=
  {| AbstractProposal.concrete_model := TalkProposal;
     AbstractProposal.pk := 4;
     AbstractProposal.submitter := dave;
     AbstractProposal.abstract := "An abstract";
     AbstractProposal.detailed_description := "Details";
     AbstractProposal.outline := "An outline";
     AbstractProposal.objective := "An objective";
     AbstractProposal.supplementary := "More";
     AbstractProposal.cancelled := false;
     AbstractProposal.accepted := Some true;
     AbstractProposal.labels := "" |}.

Definition all_proposals : ProposalQuerySet.t :=
  [talk1; talk2; tutorial1; talk3; talk4].

Definition speaker (pk : Z) (user : User.t) (proposal_type proposal_id : Z)
    (cancelled : bool) : AdditionalSpeaker.t :=
  {| AdditionalSpeaker.pk := pk; AdditionalSpeaker.user := user;
     AdditionalSpeaker.proposal_type := proposal_type;
     AdditionalSpeaker.proposal_id := proposal_id;
     AdditionalSpeaker.status := AdditionalSpeaker.SPEAKING_STATUS_ACCEPTED;
     AdditionalSpeaker.cancelled := cancelled |}.

Definition bob_on_talk1 := speaker 5 bob 7 1 false.
Definition carol_on_talk1 := speaker 3 carol 7 1 true.
Definition alice_on_tutorial1 := speaker 4 alice 8 1 false.
Definition dave_on_talk1 := speaker 2 dave 7 1 false.
Definition dave_on_talk2 := speaker 6 dave 7 2 false.

(** The rows in the order the table happens to hold them. *)
Definition db : Database :=
  {| contenttypes :=
       fun m => match m with TalkProposal => 7 | TutorialProposal => 8 end;
     additionalspeaker_table :=
       [bob_on_talk1; carol_on_talk1; alice_on_tutorial1; dave_on_talk1;
        dave_on_talk2] |}.

(** [talk1] with both attributes attached, as annotating and prefetching
    leave it. *)
Definition talk1_annotated : AbstractProposal.instance :=
  {| AbstractProposal.row := talk1;
     AbstractProposal._additional_speaker_count := Some 2;
     AbstractProposal._additional_speakers :=
       Some [dave_on_talk1; bob_on_talk1] |}.

(** [talk1] with only the prefetched list attached. *)
Definition talk1_prefetched : AbstractProposal.instance :=
  {| AbstractProposal.row := talk1;
     AbstractProposal._additional_speaker_count := None;
     AbstractProposal._additional_speakers :=
       Some [dave_on_talk1; bob_on_talk1] |}.

(** [talk1] with only the count attached. *)
Definition talk1_counted : AbstractProposal.instance :=
  {| AbstractProposal.row := talk1;
     AbstractProposal._additional_speaker_count := Some 2;
     AbstractProposal._additional_speakers := None |}.

Definition review (proposal : Z) (stage : string) : LLMReview.t :=
  {| LLMReview.pk := 0; LLMReview.proposal := proposal;
     LLMReview.stage := stage; LLMReview.categories := [];
     LLMReview.summary := "summary"; LLMReview.comment := "comment";
     LLMReview.translated_summary := ""; LLMReview.translated_comment := "";
     LLMReview.vote := "+1"; LLMReview.created_at := 0;
     LLMReview.stage_diff := ""; LLMReview.translated_stage_diff := "" |}.

End Example.

(** ** More of the module *)

(** The same row with another [status]. *)
Definition with_status (f : AdditionalSpeaker.t -> string)
    (a : AdditionalSpeaker.t) : AdditionalSpeaker.t :=
  {| AdditionalSpeaker.pk := AdditionalSpeaker.pk a;
     AdditionalSpeaker.user := AdditionalSpeaker.user a;
     AdditionalSpeaker.proposal_type := AdditionalSpeaker.proposal_type a;
     AdditionalSpeaker.proposal_id := AdditionalSpeaker.proposal_id a;
     AdditionalSpeaker.status := f a;
     AdditionalSpeaker.cancelled := AdditionalSpeaker.cancelled a |}.

(** The database after the invited users answered: every [status] may have
    changed, nothing else has. *)
Definition restatus (f : AdditionalSpeaker.t -> string) (db : Database)
  : Database :=
  {| contenttypes := contenttypes db;
     additionalspeaker_table := map (with_status f) (additionalspeaker_table db) |}.

(** How many rows of the join [filter_viewable] keeps for one proposal. *)
Definition viewable_rows (db : Database)
    (cospeaking : User.t -> list AdditionalSpeaker.t)
    (u : User.t) (p : AbstractProposal.t) : nat :=
  if User.pk (AbstractProposal.submitter p) =? User.pk u then
    Nat.max 1 (List.length (additionalspeaker_set db p))
  else
    List.length
      (filter
         (fun a =>
            existsb
              (fun b => AdditionalSpeaker.pk a =? AdditionalSpeaker.pk b)
              (cospeaking u))
         (additionalspeaker_set db p)).


(** [Example.db] with its table in the opposite order. *)
Definition reversed_db : Database :=
  {| contenttypes := contenttypes Example.db;
     additionalspeaker_table := rev (additionalspeaker_table Example.db) |}.

(** *** TalkProposal: the duration label *)

Module TalkProposalModel.

(** A talk proposal: the common columns and the two of its own. *)
Record t : Type := {
  proposal : AbstractProposal.t;
  duration : string;
  first_time_speaker : bool
}.

(** A Python [dict] from strings to strings, keys in first-insertion order. *)
Definition dict : Type := list (string * string).

(** [d[k] = v] *)
Fixpoint dict_set (k v : string) (d : dict) : dict :=
  match d with
  | [] => [(k, v)]
  | (k', v') :: d' =>
      if (k' =? k)%string then (k, v) :: d'
      else (k', v') :: dict_set k v d'
  end.

(** [d.get(k)] *)
Fixpoint dict_get (d : dict) (k : string) : option string :=
  match d with
  | [] => None
  | (k', v') :: d' => if (k' =? k)%string then Some v' else dict_get d' k
  end.

(** [dict(pairs)]: the pairs are stored one after the other. *)
Definition dict_of (pairs : list (string * string)) : dict :=
  fold_left (fun d kv => dict_set (fst kv) (snd kv) d) pairs [].

(** What the class [TalkProposal] itself holds: the memoized dictionary,
    once it has been built. *)
Record class_state : Type := { _duration_dict : option dict }.

Definition initial_class : class_state := {| _duration_dict := None |}.

(** [choices] is [settings.TALK_PROPOSAL_DURATION_CHOICES]. *)
Definition duration_dict (choices : list (string * string))
    (cls : class_state) : dict * class_state :=
  match _duration_dict cls with
  | None =>
      let d := dict_of choices in (d, {| _duration_dict := Some d |})
  | Some d => (d, cls)
  end.

Definition get_duration_display (choices : list (string * string))
    (self : t) (cls : class_state) : option string * class_state :=
  let (d, cls') := duration_dict choices cls in
  (dict_get d (duration self), cls').

End TalkProposalModel.

(** The label of the last pair of [pairs] whose value is [k]. *)
Fixpoint last_label (pairs : list (string * string)) (k : string)
  : option string :=
  match pairs with
  | [] => None
  | (k', v) :: rest =>
      match last_label rest k with
      | Some x => Some x
      | None => if (k' =? k)%string then Some v else None
      end
  end.

(** * Proofs *)

(** ** PrimarySpeaker *)

Lemma init_with_proposal (p : AbstractProposal.t) (user : option User.t) :
  PrimarySpeaker.__init__ (Some p) user =
  Ok {| PrimarySpeaker._proposal := Some p;
        PrimarySpeaker._user :=
          match user with
          | Some u => u
          | None => AbstractProposal.submitter p
          end |}.
Proof. destruct user; reflexivity. Qed.

Lemma init_with_user (proposal : option AbstractProposal.t) (u : User.t) :
  PrimarySpeaker.__init__ proposal (Some u) =
  Ok {| PrimarySpeaker._proposal := proposal; PrimarySpeaker._user := u |}.
Proof. destruct proposal; reflexivity. Qed.

(** C7: building a [PrimarySpeaker] from neither a proposal nor a user raises
    [ValueError] at once; with a proposal, or with a user, the constructor
    returns a wrapper. *)
Theorem init_needs_proposal_or_user :
  PrimarySpeaker.__init__ None None
  = raise (ValueError "must specify either proposal or user")
  /\ (forall p user, exists s, PrimarySpeaker.__init__ (Some p) user = Ok s)
  /\ (forall proposal u, exists s, PrimarySpeaker.__init__ proposal (Some u) = Ok s).
Proof.
  split; [reflexivity | split].
  - intros p user. rewrite init_with_proposal. eexists; reflexivity.
  - intros proposal u. rewrite init_with_user. eexists; reflexivity.
Qed.

(** C10: built from a user alone the wrapper exists and its [proposal] is
    [None]; built from a proposal alone its [user] is the proposal's
    submitter; and whatever the arguments, [proposal] is the argument as
    given, never something found from the user. *)
Theorem init_derives_user_only :
  (forall u, exists s,
      PrimarySpeaker.__init__ None (Some u) = Ok s
      /\ PrimarySpeaker.proposal s = None
      /\ PrimarySpeaker.user s = u)
  /\ (forall p, exists s,
         PrimarySpeaker.__init__ (Some p) None = Ok s
         /\ PrimarySpeaker.proposal s = Some p
         /\ PrimarySpeaker.user s = AbstractProposal.submitter p)
  /\ (forall proposal user s,
         PrimarySpeaker.__init__ proposal user = Ok s ->
         PrimarySpeaker.proposal s = proposal).
Proof.
  repeat split.
  - intros u. eexists. repeat split.
  - intros p. eexists. repeat split.
  - intros [p|] [u|] s H; cbv in H; inversion H; reflexivity.
Qed.

Lemma User_eq_spec (u v : User.t) : User.__eq__ u v = true <-> same_user u v.
Proof. unfold User.__eq__, same_user. apply Z.eqb_eq. Qed.

Lemma ProposalModel_eqb_spec (a b : ProposalModel) :
  ProposalModel_eqb a b = true <-> a = b.
Proof. destruct a, b; simpl; split; congruence. Qed.

Lemma proposal_eq_spec (p q : option AbstractProposal.t) :
  PrimarySpeaker.proposal_eq p q = true <-> same_proposal p q.
Proof.
  destruct p as [a|], q as [b|]; simpl; try (split; [discriminate | tauto]).
  - unfold AbstractProposal.__eq__.
    rewrite andb_true_iff, ProposalModel_eqb_spec, Z.eqb_eq. tauto.
  - tauto.
Qed.

(** An additional speaker is no [PrimarySpeaker]: [isinstance] fails. *)
Lemma primary_never_equals_additional (a : PrimarySpeaker.t)
    (x : AdditionalSpeaker.t) :
  PrimarySpeaker.__eq__ a (Additional x) = false.
Proof. reflexivity. Qed.

(** C8: two [PrimarySpeaker] objects compare equal exactly when they wrap the
    same user and the same proposal; a different user or a different proposal
    makes them unequal. *)
Theorem primary_speaker_eq_iff (a b : PrimarySpeaker.t) :
  (PrimarySpeaker.__eq__ a (Primary b) = true <->
   same_user (PrimarySpeaker.user a) (PrimarySpeaker.user b)
   /\ same_proposal (PrimarySpeaker.proposal a) (PrimarySpeaker.proposal b))
  /\ (PrimarySpeaker.__eq__ a (Primary b) = false <->
      ~ same_user (PrimarySpeaker.user a) (PrimarySpeaker.user b)
      \/ ~ same_proposal (PrimarySpeaker.proposal a) (PrimarySpeaker.proposal b)).
Proof.
  unfold Primary, PrimarySpeaker.__eq__.
  rewrite andb_true_iff, andb_false_iff.
  rewrite <- User_eq_spec, <- proposal_eq_spec.
  rewrite !not_true_iff_false. tauto.
Qed.

(** ** Completion metrics *)

Lemma truthy_VStr (s : string) : (if truthy (VStr s) then 1 else 0) = filled s.
Proof. destruct s; reflexivity. Qed.

Lemma filled_range (s : string) : 0 <= filled s <= 1.
Proof. destruct s; simpl; lia. Qed.

Lemma finished_fields_count_eq (self : AbstractProposal.t) :
  finished_fields_count self
  = filled (AbstractProposal.abstract self)
    + filled (AbstractProposal.objective self)
    + filled (AbstractProposal.supplementary self)
    + filled (AbstractProposal.detailed_description self)
    + filled (AbstractProposal.outline self).
Proof.
  unfold finished_fields_count, AbstractProposal._must_fill_fields.
  cbn [filter AbstractProposal.getattr String.eqb Ascii.eqb Bool.eqb].
  rewrite <- !truthy_VStr.
  destruct (truthy (VStr (AbstractProposal.abstract self))),
    (truthy (VStr (AbstractProposal.objective self))),
    (truthy (VStr (AbstractProposal.supplementary self))),
    (truthy (VStr (AbstractProposal.detailed_description self))),
    (truthy (VStr (AbstractProposal.outline self)));
    reflexivity.
Qed.

(** C4: there are 5 mandatory fields; [finished_fields_count] is the number of
    them holding a non-empty text; [finish_percentage] is
    [100 * finished_fields_count // 5], that is 0, 20, 40, 60, 80 or 100 for
    0 to 5 filled fields, with nothing rounded; [unfinished_fields_count] is
    what is left of the 5. *)
Theorem completion_metrics (self : AbstractProposal.t) :
  must_fill_fields_count self = 5
  /\ finished_fields_count self
     = filled (AbstractProposal.abstract self)
       + filled (AbstractProposal.objective self)
       + filled (AbstractProposal.supplementary self)
       + filled (AbstractProposal.detailed_description self)
       + filled (AbstractProposal.outline self)
  /\ 0 <= finished_fields_count self <= 5
  /\ finish_percentage self = Ok (100 * finished_fields_count self / 5)
  /\ finish_percentage self = Ok (20 * finished_fields_count self)
  /\ unfinished_fields_count self = 5 - finished_fields_count self.
Proof.
  pose proof (finished_fields_count_eq self) as E.
  pose proof (filled_range (AbstractProposal.abstract self)).
  pose proof (filled_range (AbstractProposal.objective self)).
  pose proof (filled_range (AbstractProposal.supplementary self)).
  pose proof (filled_range (AbstractProposal.detailed_description self)).
  pose proof (filled_range (AbstractProposal.outline self)).
  assert (M : must_fill_fields_count self = 5) by reflexivity.
  unfold finish_percentage, unfinished_fields_count, floordiv.
  rewrite M. change (5 =? 0) with false. cbv iota.
  repeat split; try lia; try exact E.
  f_equal. replace (100 * finished_fields_count self)
    with (20 * finished_fields_count self * 5) by lia.
  apply Z.div_mul. lia.
Qed.

(** The example of the spec: objective and outline filled, the other three
    empty. *)
Example two_of_five_filled :
  let p := {| AbstractProposal.concrete_model := TalkProposal;
              AbstractProposal.pk := 1;
              AbstractProposal.submitter :=
                {| User.pk := 1; User.speaker_name := "a"; User.email := "a@b" |};
              AbstractProposal.abstract := "";
              AbstractProposal.detailed_description := "";
              AbstractProposal.outline := "intro";
              AbstractProposal.objective := "teach";
              AbstractProposal.supplementary := "";
              AbstractProposal.cancelled := false;
              AbstractProposal.accepted := None;
              AbstractProposal.labels := "" |} in
  finished_fields_count p = 2 /\ finish_percentage p = Ok 40
  /\ unfinished_fields_count p = 3.
Proof. repeat split. Qed.

(** ** ProposalQuerySet.filter_accepted *)

(** C6: a proposal of the query set is in [filter_accepted] exactly when it
    is not cancelled and its [accepted] is true; a cancelled proposal is left
    out whatever its [accepted]. *)
Theorem filter_accepted_iff (self : ProposalQuerySet.t) (p : AbstractProposal.t) :
  (In p (ProposalQuerySet.filter_accepted self) <->
   In p self
   /\ AbstractProposal.cancelled p = false
   /\ AbstractProposal.accepted p = Some true)
  /\ (AbstractProposal.cancelled p = true ->
      ~ In p (ProposalQuerySet.filter_accepted self)).
Proof.
  unfold ProposalQuerySet.filter_accepted.
  rewrite filter_In, andb_true_iff.
  destruct (AbstractProposal.cancelled p), (AbstractProposal.accepted p) as [[|]|];
    simpl; split; try tauto; try (intuition congruence).
Qed.

(** ** ProposalQuerySet.filter_viewable and filter_reviewable *)

Section ViewableReviewable.
Variable db : Database.
Variable cospeaking : User.t -> list AdditionalSpeaker.t.

Lemma Q_submitter_spec (u : User.t) (p : AbstractProposal.t) :
  ProposalQuerySet.Q_submitter u p = true <-> submitted_by u p.
Proof. unfold ProposalQuerySet.Q_submitter, submitted_by. apply Z.eqb_eq. Qed.

Lemma pk_in_spec (a : AdditionalSpeaker.t) (l : list AdditionalSpeaker.t) :
  ProposalQuerySet.pk_in a l = true <->
  exists b, In b l /\ AdditionalSpeaker.pk a = AdditionalSpeaker.pk b.
Proof.
  unfold ProposalQuerySet.pk_in. rewrite existsb_exists.
  split; intros [b [Hb E]]; exists b; split; auto; now apply Z.eqb_eq.
Qed.

Lemma related_cospeaker_spec (u : User.t) (p : AbstractProposal.t) :
  existsb (fun a => ProposalQuerySet.pk_in a (cospeaking u))
    (additionalspeaker_set db p) = true
  <-> linked_cospeaker db cospeaking u p.
Proof.
  unfold linked_cospeaker. rewrite existsb_exists. split.
  - intros [a [Ha H]]. apply pk_in_spec in H. destruct H as [b [Hb E]].
    exists a, b. auto.
  - intros [a [b [Ha [Hb E]]]]. exists a. split; auto.
    apply pk_in_spec. exists b. auto.
Qed.

Lemma left_outer_join_inhabited (p : AbstractProposal.t) :
  exists j, In j (ProposalQuerySet.left_outer_join db p).
Proof.
  unfold ProposalQuerySet.left_outer_join.
  destruct (additionalspeaker_set db p) as [|a l].
  - exists None. now left.
  - exists (Some a). now left.
Qed.

Lemma left_outer_join_Some (p : AbstractProposal.t) (a : AdditionalSpeaker.t) :
  In (Some a) (ProposalQuerySet.left_outer_join db p)
  <-> In a (additionalspeaker_set db p).
Proof.
  unfold ProposalQuerySet.left_outer_join.
  destruct (additionalspeaker_set db p) as [|b l] eqn:E.
  - simpl. split; [intros [H|[]]; discriminate | tauto].
  - rewrite in_map_iff. split.
    + intros [x [Hx Hin]]. now inversion Hx; subst.
    + intros H. exists a. auto.
Qed.

Lemma joined_row_passes (u : User.t) (p : AbstractProposal.t) :
  (exists j, In j (ProposalQuerySet.left_outer_join db p)
             /\ ProposalQuerySet.Q_submitter u p
                || ProposalQuerySet.Q_cospeaker cospeaking u j = true)
  <-> submitted_by u p \/ linked_cospeaker db cospeaking u p.
Proof.
  split.
  - intros [j [Hj H]]. apply orb_true_iff in H. destruct H as [H|H].
    + left. now apply Q_submitter_spec.
    + right. destruct j as [a|]; [|discriminate]. simpl in H.
      apply left_outer_join_Some in Hj. apply related_cospeaker_spec.
      apply existsb_exists. exists a. auto.
  - intros [H|H].
    + destruct (left_outer_join_inhabited p) as [j Hj]. exists j. split; auto.
      apply Q_submitter_spec in H. now rewrite H.
    + apply related_cospeaker_spec in H. apply existsb_exists in H.
      destruct H as [a [Ha H]]. exists (Some a). split.
      * now apply left_outer_join_Some.
      * simpl. rewrite H. apply orb_true_r.
Qed.

Lemma filter_viewable_In (self : ProposalQuerySet.t) (u : User.t)
    (p : AbstractProposal.t) :
  In p (ProposalQuerySet.filter_viewable db cospeaking self u)
  <-> In p self /\ (submitted_by u p \/ linked_cospeaker db cospeaking u p).
Proof.
  unfold ProposalQuerySet.filter_viewable. rewrite in_flat_map. split.
  - intros [x [Hx H]]. apply in_flat_map in H. destruct H as [j [Hj H]].
    destruct (ProposalQuerySet.Q_submitter u x
              || ProposalQuerySet.Q_cospeaker cospeaking u j) eqn:E;
      [|contradiction].
    destruct H as [H|[]]. subst x. split; auto.
    apply joined_row_passes. exists j. auto.
  - intros [Hp H]. apply joined_row_passes in H. destruct H as [j [Hj H]].
    exists p. split; auto. apply in_flat_map. exists j. split; auto.
    rewrite H. now left.
Qed.

Lemma filter_reviewable_In (self : ProposalQuerySet.t) (u : User.t)
    (p : AbstractProposal.t) :
  In p (ProposalQuerySet.filter_reviewable db cospeaking self u)
  <-> In p self
      /\ AbstractProposal.cancelled p = false
      /\ ~ submitted_by u p
      /\ ~ linked_cospeaker db cospeaking u p.
Proof.
  unfold ProposalQuerySet.filter_reviewable.
  rewrite filter_In, negb_true_iff, !orb_false_iff.
  rewrite <- Q_submitter_spec, <- related_cospeaker_spec.
  rewrite !not_true_iff_false.
  destruct (AbstractProposal.cancelled p); simpl; intuition congruence.
Qed.

(** C5: a proposal of the collection that the user submitted, or of which the
    user is a linked co-speaker, is in [filter_viewable] and not in
    [filter_reviewable]; one that is not cancelled and has neither relation
    to the user is in [filter_reviewable] and not in [filter_viewable]. *)
Theorem viewable_or_reviewable (self : ProposalQuerySet.t) (u : User.t)
    (p : AbstractProposal.t) :
  In p self ->
  (submitted_by u p \/ linked_cospeaker db cospeaking u p ->
   In p (ProposalQuerySet.filter_viewable db cospeaking self u)
   /\ ~ In p (ProposalQuerySet.filter_reviewable db cospeaking self u))
  /\ (AbstractProposal.cancelled p = false ->
      ~ submitted_by u p ->
      ~ linked_cospeaker db cospeaking u p ->
      In p (ProposalQuerySet.filter_reviewable db cospeaking self u)
      /\ ~ In p (ProposalQuerySet.filter_viewable db cospeaking self u)).
Proof.
  intros Hp. rewrite filter_viewable_In, filter_reviewable_In. tauto.
Qed.

End ViewableReviewable.

(** ** Unique constraints *)

Lemma value_eqb_eq (v w : value) : value_eqb v w = true <-> v = w.
Proof.
  destruct v, w; simpl; try (split; [discriminate | congruence]).
  - tauto.
  - rewrite Bool.eqb_true_iff. split; congruence.
  - rewrite Z.eqb_eq. split; congruence.
  - rewrite String.eqb_eq. split; congruence.
Qed.

Lemma key_eqb_eq (k1 k2 : list value) : key_eqb k1 k2 = true <-> k1 = k2.
Proof.
  revert k2. induction k1 as [|v k1 IH]; intros [|w k2]; simpl;
    try (split; [discriminate | congruence]).
  - tauto.
  - rewrite andb_true_iff, value_eqb_eq, IH. split.
    + intros [-> ->]. reflexivity.
    + intros H. inversion H. auto.
Qed.

Section TableFacts.
Context {A : Type}.
Variable column : string -> A -> value.
Variable with_pk : Z -> A -> A.
Variable unique_together : list (list string).

Lemma violates_spec (a : A) (stored : list A) :
  violates column unique_together a stored = true <->
  exists group b,
    In group unique_together /\ In b stored
    /\ unique_key column group a = unique_key column group b.
Proof.
  unfold violates. rewrite existsb_exists. split.
  - intros [group [Hg H]]. apply existsb_exists in H.
    destruct H as [b [Hb H]]. apply key_eqb_eq in H. exists group, b. auto.
  - intros [group [b [Hg [Hb H]]]]. exists group. split; auto.
    apply existsb_exists. exists b. split; auto. now apply key_eqb_eq.
Qed.

Lemma insert_inv (a : A) (tbl tbl' : Table A) :
  insert column with_pk unique_together a tbl = Ok tbl' ->
  violates column unique_together (with_pk (next_pk tbl) a) (rows tbl) = false
  /\ rows tbl' = (rows tbl ++ [with_pk (next_pk tbl) a])%list
  /\ next_pk tbl' = next_pk tbl + 1.
Proof.
  unfold insert.
  destruct (violates column unique_together (with_pk (next_pk tbl) a) (rows tbl)).
  - discriminate.
  - intros H. inversion H. auto.
Qed.

Lemma insert_conflict (a : A) (tbl : Table A) :
  violates column unique_together (with_pk (next_pk tbl) a) (rows tbl) = true ->
  insert column with_pk unique_together a tbl
  = raise (IntegrityError "duplicate key value violates unique constraint").
Proof. unfold insert. now intros ->. Qed.

Lemma insert_keeps_keys_distinct (a : A) (tbl tbl' : Table A) :
  keys_distinct column unique_together (rows tbl) ->
  insert column with_pk unique_together a tbl = Ok tbl' ->
  keys_distinct column unique_together (rows tbl').
Proof.
  intros Inv H group Hg. apply insert_inv in H. destruct H as [V [-> _]].
  rewrite map_app. apply NoDup_app.
  - now apply Inv.
  - simpl. constructor; [tauto | constructor].
  - intros k Hk [<-|[]]. apply in_map_iff in Hk. destruct Hk as [b [E Hb]].
    assert (violates column unique_together (with_pk (next_pk tbl) a) (rows tbl)
            = true) as C; [|congruence].
    apply violates_spec. exists group, b. auto.
Qed.

Lemma reachable_keys_distinct (tbl : Table A) :
  reachable column with_pk unique_together tbl ->
  keys_distinct column unique_together (rows tbl).
Proof.
  induction 1 as [|a tbl tbl' _ IH H].
  - intros group _. constructor.
  - eapply insert_keeps_keys_distinct; eauto.
Qed.

End TableFacts.

Lemma at_most_one {A K : Type} (f : A -> K) (P : A -> bool) (k : K) (l : list A) :
  NoDup (map f l) ->
  (forall a, P a = true -> f a = k) ->
  (List.length (filter P l) <= 1)%nat.
Proof.
  intros N HP. induction l as [|a l IH]; simpl; [lia|].
  inversion N as [|x xs Hnot N']; subst.
  destruct (P a) eqn:Pa; [|auto].
  destruct (filter P l) as [|b rest] eqn:F; simpl; [lia|].
  exfalso. apply Hnot.
  assert (In b (filter P l)) as Hb by (rewrite F; now left).
  apply filter_In in Hb. destruct Hb as [Hb Pb].
  rewrite (HP a Pa), <- (HP b Pb). now apply in_map.
Qed.

Lemma invitation_key (a : AdditionalSpeaker.t) :
  unique_key AdditionalSpeaker.column AdditionalSpeaker.Meta.unique_together a
  = [VInt (User.pk (AdditionalSpeaker.user a));
     VInt (AdditionalSpeaker.proposal_type a);
     VInt (AdditionalSpeaker.proposal_id a)].
Proof. reflexivity. Qed.

Lemma review_key (r : LLMReview.t) :
  unique_key LLMReview.column ["proposal"; "stage"] r
  = [VInt (LLMReview.proposal r); VStr (LLMReview.stage r)].
Proof. reflexivity. Qed.

Lemma second_invitation_conflicts (tbl : Table AdditionalSpeaker.t)
    (a b : AdditionalSpeaker.t) :
  In a (rows tbl) -> same_invitation a b ->
  AdditionalSpeakerTable.save_new b tbl
  = raise (IntegrityError "duplicate key value violates unique constraint").
Proof.
  intros Ha [Eu [Et Ei]]. apply insert_conflict, violates_spec.
  exists AdditionalSpeaker.Meta.unique_together, a.
  split; [now left | split; [assumption|]].
  rewrite !invitation_key. simpl. now rewrite Eu, Et, Ei.
Qed.

Lemma second_review_conflicts (tbl : Table LLMReview.t) (a b : LLMReview.t) :
  In a (rows tbl) -> same_review_slot a b ->
  LLMReview.save_new b tbl
  = raise (IntegrityError "duplicate key value violates unique constraint").
Proof.
  intros Ha [Ep Es]. apply insert_conflict, violates_spec.
  exists ["proposal"; "stage"], a.
  split; [now left | split; [assumption|]].
  rewrite !review_key. simpl. now rewrite Ep, Es.
Qed.

Lemma saved_invitation_stored (tbl tbl' : Table AdditionalSpeaker.t)
    (a : AdditionalSpeaker.t) :
  AdditionalSpeakerTable.save_new a tbl = Ok tbl' ->
  exists a', In a' (rows tbl') /\ same_invitation a' a.
Proof.
  intros H. apply insert_inv in H. destruct H as [_ [-> _]].
  exists (AdditionalSpeakerTable.with_pk (next_pk tbl) a). split.
  - apply in_or_app. right. now left.
  - repeat split.
Qed.

Lemma saved_review_stored (tbl tbl' : Table LLMReview.t) (r : LLMReview.t) :
  LLMReview.save_new r tbl = Ok tbl' ->
  exists r', In r' (rows tbl') /\ same_review_slot r' r.
Proof.
  intros H. apply insert_inv in H. destruct H as [_ [-> _]].
  exists (LLMReview.with_pk (next_pk tbl) r). split.
  - apply in_or_app. right. now left.
  - repeat split.
Qed.

(** C9: once a co-speaker row for a (user, proposal type, proposal id) is
    stored, saving another row for the same triple raises [IntegrityError],
    and so does saving a second review for a stored (proposal, stage); hence
    a table built by saves never holds two rows for one key. *)
Theorem unique_together_enforced :
  (forall tbl tbl' a b,
      AdditionalSpeakerTable.save_new a tbl = Ok tbl' ->
      same_invitation a b ->
      exists msg, AdditionalSpeakerTable.save_new b tbl' = raise (IntegrityError msg))
  /\ (forall tbl user_pk proposal_type proposal_id,
         reachable AdditionalSpeaker.column AdditionalSpeakerTable.with_pk
           AdditionalSpeakerTable.constraints tbl ->
         (List.length (invitations_of user_pk proposal_type proposal_id (rows tbl))
          <= 1)%nat)
  /\ (forall tbl tbl' a b,
         LLMReview.save_new a tbl = Ok tbl' ->
         same_review_slot a b ->
         exists msg, LLMReview.save_new b tbl' = raise (IntegrityError msg))
  /\ (forall tbl proposal stage,
         reachable LLMReview.column LLMReview.with_pk
           LLMReview.Meta.unique_together tbl ->
         (List.length (reviews_of proposal stage (rows tbl)) <= 1)%nat).
Proof.
  repeat split.
  - intros tbl tbl' a b H S. apply saved_invitation_stored in H.
    destruct H as [a' [Ha' [E1 [E2 E3]]]]. eexists.
    apply (second_invitation_conflicts tbl' a' b Ha').
    destruct S as [S1 [S2 S3]]. repeat split; congruence.
  - intros tbl u pt pid R. apply reachable_keys_distinct in R.
    specialize (R _ (or_introl eq_refl)).
    apply (at_most_one _ _ [VInt u; VInt pt; VInt pid] _ R).
    intros a Pa. rewrite invitation_key.
    apply andb_true_iff in Pa. destruct Pa as [Pa P3].
    apply andb_true_iff in Pa. destruct Pa as [P1 P2].
    apply Z.eqb_eq in P1, P2, P3. congruence.
  - intros tbl tbl' a b H S. apply saved_review_stored in H.
    destruct H as [a' [Ha' [E1 E2]]]. eexists.
    apply (second_review_conflicts tbl' a' b Ha').
    destruct S as [S1 S2]. split; congruence.
  - intros tbl p st R. apply reachable_keys_distinct in R.
    specialize (R _ (or_introl eq_refl)).
    apply (at_most_one _ _ [VInt p; VStr st] _ R).
    intros r Pr. rewrite review_key.
    apply andb_true_iff in Pr. destruct Pr as [P1 P2].
    apply Z.eqb_eq in P1. apply String.eqb_eq in P2. congruence.
Qed.

(** ** ORDER BY *)

Section OrderByFacts.
Context {A : Type}.
Variable column : string -> A -> value.
Variable ordering : list string.

Let le (a b : A) : Prop := row_leb column ordering a b = true.

Lemma insert_sorted_perm (a : A) (l : list A) :
  Permutation (insert_sorted column ordering a l) (a :: l).
Proof.
  induction l as [|b l IH]; simpl.
  - apply Permutation_refl.
  - destruct (row_leb column ordering a b).
    + apply Permutation_refl.
    + eapply perm_trans; [apply perm_skip, IH | apply perm_swap].
Qed.

Lemma order_by_perm (l : list A) : Permutation (order_by column ordering l) l.
Proof.
  induction l as [|a l IH]; simpl.
  - constructor.
  - eapply perm_trans; [apply insert_sorted_perm | now apply perm_skip].
Qed.

Hypothesis leb_total :
  forall a b, row_leb column ordering a b = false ->
              row_leb column ordering b a = true.

Lemma insert_sorted_HdRel (a b : A) (l : list A) :
  le b a -> HdRel le b l -> HdRel le b (insert_sorted column ordering a l).
Proof.
  intros Hba H. destruct l as [|c l]; simpl.
  - now constructor.
  - inversion H; subst. destruct (row_leb column ordering a c); now constructor.
Qed.

Lemma insert_sorted_Sorted (a : A) (l : list A) :
  Sorted le l -> Sorted le (insert_sorted column ordering a l).
Proof.
  induction 1 as [|b l S IH H]; simpl.
  - repeat constructor.
  - destruct (row_leb column ordering a b) eqn:E.
    + constructor; [now constructor | now constructor].
    + constructor; [exact IH|].
      apply insert_sorted_HdRel; [now apply leb_total | exact H].
Qed.

Lemma order_by_Sorted (l : list A) : Sorted le (order_by column ordering l).
Proof.
  induction l as [|a l IH]; simpl.
  - constructor.
  - now apply insert_sorted_Sorted.
Qed.

End OrderByFacts.

Lemma StronglySorted_weaken {A : Type} (R R' : A -> A -> Prop) (l : list A) :
  (forall a b, R a b -> R' a b) -> StronglySorted R l -> StronglySorted R' l.
Proof.
  intros W. induction 1 as [|a l S IH F]; constructor; auto.
  eapply Forall_impl; [|exact F]. auto.
Qed.

Lemma speaker_leb_spec (a b : AdditionalSpeaker.t) :
  row_leb AdditionalSpeaker.column AdditionalSpeaker.Meta.ordering a b = true
  <-> ordering_le a b.
Proof.
  unfold row_leb, ordering_le, AdditionalSpeaker.Meta.ordering.
  cbn [rows_compare AdditionalSpeaker.column String.eqb Ascii.eqb Bool.eqb
       value_compare].
  destruct (Z.compare_spec (AdditionalSpeaker.proposal_type a)
              (AdditionalSpeaker.proposal_type b));
    destruct (Z.compare_spec (AdditionalSpeaker.proposal_id a)
                (AdditionalSpeaker.proposal_id b));
    destruct (Z.compare_spec (AdditionalSpeaker.pk a) (AdditionalSpeaker.pk b));
    split; intros; try discriminate; try reflexivity; lia.
Qed.

Lemma speaker_leb_total (a b : AdditionalSpeaker.t) :
  row_leb AdditionalSpeaker.column AdditionalSpeaker.Meta.ordering a b = false ->
  row_leb AdditionalSpeaker.column AdditionalSpeaker.Meta.ordering b a = true.
Proof.
  intros H. apply speaker_leb_spec.
  assert (~ ordering_le a b) as N
      by (rewrite <- speaker_leb_spec; congruence).
  unfold ordering_le in *. lia.
Qed.

Lemma ordering_le_trans (a b c : AdditionalSpeaker.t) :
  ordering_le a b -> ordering_le b c -> ordering_le a c.
Proof. unfold ordering_le. lia. Qed.

Lemma default_ordering_sorted (qs : list AdditionalSpeaker.t) :
  StronglySorted ordering_le
    (order_by AdditionalSpeaker.column AdditionalSpeaker.Meta.ordering qs).
Proof.
  apply Sorted_StronglySorted; [exact ordering_le_trans|].
  pose proof (order_by_Sorted AdditionalSpeaker.column
                AdditionalSpeaker.Meta.ordering speaker_leb_total qs) as S.
  induction S as [|a l S IH H]; constructor; auto.
  destruct H; constructor. now apply speaker_leb_spec.
Qed.

(** ** The speaker composite *)

Lemma filter_cancelled_false (qs : list AdditionalSpeaker.t) :
  SpeakerQuerySet.filter_cancelled false qs = non_cancelled qs.
Proof.
  unfold SpeakerQuerySet.filter_cancelled, non_cancelled.
  apply filter_ext. intros a. now destruct (AdditionalSpeaker.cancelled a).
Qed.

(** The list the fresh lookup of [speakers] returns. *)
Lemma fresh_additionals (db : Database) (p : AbstractProposal.t) (n : nat) :
  SpeakerQuerySet.iterate (non_cancelled_additionals db p) n
  = (Ok (order_by AdditionalSpeaker.column AdditionalSpeaker.Meta.ordering
           (non_cancelled (additionalspeaker_set db p))),
     S n).
Proof.
  unfold SpeakerQuerySet.iterate, non_cancelled_additionals,
    SpeakerQuerySet.select_related, execute.
  now rewrite filter_cancelled_false.
Qed.

Lemma fresh_count (db : Database) (p : AbstractProposal.t) (n : nat) :
  SpeakerQuerySet.count
    (SpeakerQuerySet.filter_cancelled false (additionalspeaker_set db p)) n
  = (Ok (Z.of_nat (List.length (non_cancelled (additionalspeaker_set db p)))),
     S n).
Proof.
  unfold SpeakerQuerySet.count, execute. now rewrite filter_cancelled_false.
Qed.

(** [speakers], one branch at a time. *)
Lemma speakers_run (db : Database) (self : AbstractProposal.instance) (n : nat) :
  let p := AbstractProposal.row self in
  let rest :=
    match AbstractProposal._additional_speakers self with
    | Some l => (Ok (Primary (primary_of p) :: map Additional l), n)
    | None =>
        (Ok (Primary (primary_of p)
             :: map Additional
                  (order_by AdditionalSpeaker.column
                     AdditionalSpeaker.Meta.ordering
                     (non_cancelled (additionalspeaker_set db p)))),
         S n)
    end in
  speakers db self n
  = match AbstractProposal._additional_speaker_count self with
    | Some c => if c <? 1 then (Ok [Primary (primary_of p)], n) else rest
    | None => rest
    end.
Proof.
  unfold speakers, bind, lift, ret. rewrite init_with_proposal.
  fold (primary_of (AbstractProposal.row self)).
  cbv zeta. unfold Ok at 1.
  destruct (AbstractProposal._additional_speaker_count self) as [c|];
    [destruct (c <? 1); [reflexivity|]|];
    (destruct (AbstractProposal._additional_speakers self) as [l|];
     [reflexivity | now rewrite fresh_additionals]).
Qed.

Lemma speaker_count_run (db : Database) (self : AbstractProposal.instance)
    (n : nat) :
  speaker_count db self n
  = match AbstractProposal._additional_speaker_count self with
    | Some c => (Ok (c + 1), n)
    | None =>
        (Ok (Z.of_nat
               (List.length
                  (non_cancelled
                     (additionalspeaker_set db (AbstractProposal.row self))))
             + 1),
         S n)
    end.
Proof.
  unfold speaker_count, bind, ret.
  destruct (AbstractProposal._additional_speaker_count self) as [c|].
  - reflexivity.
  - now rewrite fresh_count.
Qed.

Lemma precomputed_count (db : Database) (self : AbstractProposal.instance)
    (c : Z) :
  precomputed_ok db self ->
  AbstractProposal._additional_speaker_count self = Some c ->
  c = Z.of_nat
        (List.length
           (non_cancelled (additionalspeaker_set db (AbstractProposal.row self)))).
Proof.
  intros [H _] E. specialize (H c E). unfold answer in H.
  rewrite fresh_count in H. simpl in H. now inversion H.
Qed.

Lemma precomputed_list (db : Database) (self : AbstractProposal.instance)
    (l : list AdditionalSpeaker.t) :
  precomputed_ok db self ->
  AbstractProposal._additional_speakers self = Some l ->
  l = order_by AdditionalSpeaker.column AdditionalSpeaker.Meta.ordering
        (non_cancelled (additionalspeaker_set db (AbstractProposal.row self))).
Proof.
  intros [_ H] E. specialize (H l E). unfold answer in H.
  rewrite fresh_additionals in H. simpl in H. now inversion H.
Qed.

Lemma loaded_precomputed_ok (db : Database) (p : AbstractProposal.t) :
  precomputed_ok db (AbstractProposal.loaded p).
Proof. split; intros x H; discriminate H. Qed.

(** With honest attachments every branch of [speakers] yields one list. *)
Lemma speakers_answer (db : Database) (self : AbstractProposal.instance) :
  precomputed_ok db self ->
  answer (speakers db self)
  = Ok (Primary (primary_of (AbstractProposal.row self))
        :: map Additional
             (order_by AdditionalSpeaker.column AdditionalSpeaker.Meta.ordering
                (non_cancelled
                   (additionalspeaker_set db (AbstractProposal.row self))))).
Proof.
  intros ok. unfold answer. rewrite speakers_run. cbv zeta.
  assert (R :
    fst match AbstractProposal._additional_speakers self with
        | Some l =>
            (Ok (Primary (primary_of (AbstractProposal.row self))
                 :: map Additional l), 0%nat)
        | None =>
            (Ok (Primary (primary_of (AbstractProposal.row self))
                 :: map Additional
                      (order_by AdditionalSpeaker.column
                         AdditionalSpeaker.Meta.ordering
                         (non_cancelled
                            (additionalspeaker_set db
                               (AbstractProposal.row self))))), 1%nat)
        end
    = Ok (Primary (primary_of (AbstractProposal.row self))
          :: map Additional
               (order_by AdditionalSpeaker.column
                  AdditionalSpeaker.Meta.ordering
                  (non_cancelled
                     (additionalspeaker_set db (AbstractProposal.row self)))))).
  { destruct (AbstractProposal._additional_speakers self) as [l|] eqn:El.
    - now rewrite (precomputed_list db self l ok El).
    - reflexivity. }
  destruct (AbstractProposal._additional_speaker_count self) as [c|] eqn:Ec;
    [|exact R].
  destruct (c <? 1) eqn:Lt; [|exact R].
  apply Z.ltb_lt in Lt. rewrite (precomputed_count db self c ok Ec) in Lt.
  destruct (non_cancelled (additionalspeaker_set db (AbstractProposal.row self)));
    [reflexivity | simpl in Lt; lia].
Qed.

Lemma speaker_count_answer (db : Database) (self : AbstractProposal.instance) :
  precomputed_ok db self ->
  answer (speaker_count db self)
  = Ok (Z.of_nat
          (List.length
             (non_cancelled
                (additionalspeaker_set db (AbstractProposal.row self))))
        + 1).
Proof.
  intros ok. unfold answer. rewrite speaker_count_run.
  destruct (AbstractProposal._additional_speaker_count self) as [c|] eqn:Ec.
  - now rewrite (precomputed_count db self c ok Ec).
  - reflexivity.
Qed.

(** C1: iterating [speakers] yields the primary speaker, wrapping the proposal
    and its submitter, and then exactly the non-cancelled rows of the
    proposal's [additionalspeaker_set], each as often as it is stored, in
    (proposal type, proposal id, key) order; no cancelled row is yielded, and
    nothing depends on whether the proposal itself is cancelled. *)
Theorem speakers_primary_then_non_cancelled (db : Database)
    (self : AbstractProposal.instance) :
  precomputed_ok db self ->
  exists primary additionals,
    answer (speakers db self)
    = Ok (Primary primary :: map Additional additionals)
    /\ PrimarySpeaker.proposal primary = Some (AbstractProposal.row self)
    /\ PrimarySpeaker.user primary
       = AbstractProposal.submitter (AbstractProposal.row self)
    /\ Permutation additionals
         (non_cancelled (additionalspeaker_set db (AbstractProposal.row self)))
    /\ StronglySorted ordering_le additionals
    /\ (forall a, In a additionals -> AdditionalSpeaker.cancelled a = false).
Proof.
  intros ok.
  exists (primary_of (AbstractProposal.row self)),
    (order_by AdditionalSpeaker.column AdditionalSpeaker.Meta.ordering
       (non_cancelled (additionalspeaker_set db (AbstractProposal.row self)))).
  split; [now apply speakers_answer|].
  split; [reflexivity|]. split; [reflexivity|].
  split; [apply order_by_perm|].
  split; [apply default_ordering_sorted|].
  intros a Ha.
  apply (Permutation_in a (order_by_perm _ _ _)) in Ha.
  unfold non_cancelled in Ha. apply filter_In in Ha.
  destruct Ha as [_ Ha]. now destruct (AdditionalSpeaker.cancelled a).
Qed.

(** C3: [speaker_count] is 1 plus the number of rows of the proposal's
    [additionalspeaker_set] whose [cancelled] flag is false. *)
Theorem speaker_count_one_plus_non_cancelled (db : Database)
    (self : AbstractProposal.instance) :
  precomputed_ok db self ->
  answer (speaker_count db self)
  = Ok (1 + Z.of_nat
              (List.length
                 (non_cancelled
                    (additionalspeaker_set db (AbstractProposal.row self))))).
Proof.
  intros ok. rewrite speaker_count_answer by assumption. f_equal. lia.
Qed.

(** C2, as the code has it: with attached values that were computed
    beforehand, [speakers] and [speaker_count] answer what they answer on the
    object without them.  [speaker_count] issues no query exactly when the
    count is attached; [speakers] issues none exactly when the list is
    attached or the attached count is below 1, and one query otherwise. *)
Theorem precomputed_same_answers (db : Database)
    (self : AbstractProposal.instance) :
  precomputed_ok db self ->
  let fresh := AbstractProposal.loaded (AbstractProposal.row self) in
  answer (speakers db self) = answer (speakers db fresh)
  /\ answer (speaker_count db self) = answer (speaker_count db fresh)
  /\ queries (speakers db fresh) = 1%nat
  /\ queries (speaker_count db fresh) = 1%nat
  /\ queries (speaker_count db self)
     = match AbstractProposal._additional_speaker_count self with
       | Some _ => 0%nat
       | None => 1%nat
       end
  /\ queries (speakers db self)
     = match AbstractProposal._additional_speaker_count self,
             AbstractProposal._additional_speakers self with
       | Some n, Some _ => 0%nat
       | Some n, None => if n <? 1 then 0%nat else 1%nat
       | None, Some _ => 0%nat
       | None, None => 1%nat
       end.
Proof.
  intros ok fresh. subst fresh.
  split.
  { rewrite (speakers_answer db self ok).
    now rewrite (speakers_answer db _ (loaded_precomputed_ok db _)). }
  split.
  { rewrite (speaker_count_answer db self ok).
    now rewrite (speaker_count_answer db _ (loaded_precomputed_ok db _)). }
  unfold queries. rewrite !speakers_run, !speaker_count_run. cbv zeta.
  repeat split.
  - now destruct (AbstractProposal._additional_speaker_count self).
  - destruct (AbstractProposal._additional_speaker_count self) as [n|];
      destruct (AbstractProposal._additional_speakers self);
      try destruct (n <? 1); reflexivity.
Qed.

(** ** The definitions at work on the small conference *)

Example speakers_of_talk1 :
  speakers Example.db (AbstractProposal.loaded Example.talk1) 0%nat
  = (Ok [Primary (primary_of Example.talk1);
         Additional Example.dave_on_talk1;
         Additional Example.bob_on_talk1],
     1%nat).
Proof. reflexivity. Qed.

Example speaker_count_of_talk1 :
  speaker_count Example.db (AbstractProposal.loaded Example.talk1) 0%nat
  = (Ok 3, 1%nat).
Proof. reflexivity. Qed.

Example speakers_of_annotated_talk1 :
  speakers Example.db Example.talk1_annotated 0%nat
  = (Ok [Primary (primary_of Example.talk1);
         Additional Example.dave_on_talk1;
         Additional Example.bob_on_talk1],
     0%nat).
Proof. reflexivity. Qed.

Example accepted_proposals :
  ProposalQuerySet.filter_accepted Example.all_proposals = [Example.talk4].
Proof. reflexivity. Qed.

Example viewable_by_bob :
  ProposalQuerySet.filter_viewable Example.db (cospeaking_info_set Example.db)
    Example.all_proposals Example.bob
  = [Example.talk1; Example.talk2].
Proof. reflexivity. Qed.

Example viewable_by_alice_repeats :
  ProposalQuerySet.filter_viewable Example.db (cospeaking_info_set Example.db)
    Example.all_proposals Example.alice
  = [Example.talk1; Example.talk1; Example.talk1; Example.tutorial1].
Proof. reflexivity. Qed.

Example reviewable_by_bob :
  ProposalQuerySet.filter_reviewable Example.db (cospeaking_info_set Example.db)
    Example.all_proposals Example.bob
  = [Example.tutorial1; Example.talk4].
Proof. reflexivity. Qed.

Lemma talk1_annotated_ok : precomputed_ok Example.db Example.talk1_annotated.
Proof. split; intros x H; inversion H; reflexivity. Defined.

Lemma talk1_prefetched_ok : precomputed_ok Example.db Example.talk1_prefetched.
Proof. split; intros x H; inversion H; reflexivity. Defined.

Lemma talk1_counted_ok : precomputed_ok Example.db Example.talk1_counted.
Proof. split; intros x H; inversion H; reflexivity. Defined.

Lemma speakers_witness :
  precomputed_ok Example.db Example.talk1_annotated
  /\ exists primary additionals,
       answer (speakers Example.db Example.talk1_annotated)
       = Ok (Primary primary :: map Additional additionals)
       /\ PrimarySpeaker.proposal primary = Some Example.talk1
       /\ PrimarySpeaker.user primary = Example.alice
       /\ Permutation additionals
            (non_cancelled (additionalspeaker_set Example.db Example.talk1))
       /\ StronglySorted ordering_le additionals
       /\ (forall a, In a additionals -> AdditionalSpeaker.cancelled a = false).
Proof.
  split; [exact talk1_annotated_ok|].
  exact (speakers_primary_then_non_cancelled Example.db Example.talk1_annotated
           talk1_annotated_ok).
Defined.

Lemma speaker_count_witness :
  precomputed_ok Example.db Example.talk1_annotated
  /\ answer (speaker_count Example.db Example.talk1_annotated) = Ok 3.
Proof.
  split; [exact talk1_annotated_ok|].
  exact (speaker_count_one_plus_non_cancelled Example.db Example.talk1_annotated
           talk1_annotated_ok).
Defined.

(** Against C2 as stated: the prefetched list is attached and is what the
    lookup returns, yet [speaker_count] still issues its count query; and an
    attached count of 2 does not spare [speakers] its lookup. *)
Lemma precomputed_not_always_used :
  precomputed_ok Example.db Example.talk1_prefetched
  /\ AbstractProposal._additional_speakers Example.talk1_prefetched
     = Some [Example.dave_on_talk1; Example.bob_on_talk1]
  /\ queries (speaker_count Example.db Example.talk1_prefetched) = 1%nat
  /\ precomputed_ok Example.db Example.talk1_counted
  /\ AbstractProposal._additional_speaker_count Example.talk1_counted = Some 2
  /\ queries (speakers Example.db Example.talk1_counted) = 1%nat.
Proof.
  repeat split; try (intros x H; inversion H; reflexivity).
Qed.

Lemma precomputed_same_answers_witness :
  precomputed_ok Example.db Example.talk1_prefetched
  /\ answer (speakers Example.db Example.talk1_prefetched)
     = answer (speakers Example.db (AbstractProposal.loaded Example.talk1))
  /\ answer (speaker_count Example.db Example.talk1_prefetched)
     = answer (speaker_count Example.db (AbstractProposal.loaded Example.talk1))
  /\ queries (speakers Example.db (AbstractProposal.loaded Example.talk1)) = 1%nat
  /\ queries (speaker_count Example.db (AbstractProposal.loaded Example.talk1))
     = 1%nat
  /\ queries (speaker_count Example.db Example.talk1_prefetched) = 1%nat
  /\ queries (speakers Example.db Example.talk1_prefetched) = 0%nat.
Proof.
  split; [exact talk1_prefetched_ok|].
  exact (precomputed_same_answers Example.db Example.talk1_prefetched
           talk1_prefetched_ok).
Defined.

Lemma viewable_or_reviewable_witness :
  In Example.talk1 Example.all_proposals
  /\ In Example.tutorial1 Example.all_proposals
  /\ (In Example.talk1
        (ProposalQuerySet.filter_viewable Example.db
           (cospeaking_info_set Example.db) Example.all_proposals Example.bob)
      /\ ~ In Example.talk1
           (ProposalQuerySet.filter_reviewable Example.db
              (cospeaking_info_set Example.db) Example.all_proposals Example.bob))
  /\ (In Example.tutorial1
        (ProposalQuerySet.filter_reviewable Example.db
           (cospeaking_info_set Example.db) Example.all_proposals Example.bob)
      /\ ~ In Example.tutorial1
           (ProposalQuerySet.filter_viewable Example.db
              (cospeaking_info_set Example.db) Example.all_proposals Example.bob)).
Proof.
  assert (In Example.talk1 Example.all_proposals) as I1 by (now left).
  assert (In Example.tutorial1 Example.all_proposals) as I2
      by (right; right; now left).
  split; [exact I1 | split; [exact I2 | split]].
  - apply (proj1 (viewable_or_reviewable Example.db
                    (cospeaking_info_set Example.db) Example.all_proposals
                    Example.bob Example.talk1 I1)).
    right. exists Example.bob_on_talk1, Example.bob_on_talk1.
    split; [now left | split; [now left | reflexivity]].
  - apply (proj2 (viewable_or_reviewable Example.db
                    (cospeaking_info_set Example.db) Example.all_proposals
                    Example.bob Example.tutorial1 I2)).
    + reflexivity.
    + intros H. discriminate H.
    + intros H. apply related_cospeaker_spec in H. discriminate H.
Defined.

Lemma filter_accepted_witness :
  AbstractProposal.cancelled Example.talk3 = true
  /\ AbstractProposal.accepted Example.talk3 = Some true
  /\ ~ In Example.talk3 (ProposalQuerySet.filter_accepted Example.all_proposals).
Proof.
  split; [reflexivity | split; [reflexivity|]].
  exact (proj2 (filter_accepted_iff Example.all_proposals Example.talk3)
           eq_refl).
Defined.

Lemma init_derives_user_only_witness :
  PrimarySpeaker.__init__ None (Some Example.alice)
  = Ok {| PrimarySpeaker._proposal := None;
          PrimarySpeaker._user := Example.alice |}
  /\ PrimarySpeaker.proposal
       {| PrimarySpeaker._proposal := None;
          PrimarySpeaker._user := Example.alice |}
     = None.
Proof.
  split; [reflexivity|].
  exact (proj2 (proj2 init_derives_user_only) None (Some Example.alice) _
           eq_refl).
Defined.

Lemma unique_together_witness :
  (exists tbl',
      AdditionalSpeakerTable.save_new Example.bob_on_talk1 empty_table = Ok tbl'
      /\ exists msg,
           AdditionalSpeakerTable.save_new (Example.speaker 0 Example.bob 7 1 true)
             tbl'
           = raise (IntegrityError msg))
  /\ (exists tbl',
         LLMReview.save_new (Example.review 1 LLMReview.STAGE_1) empty_table
         = Ok tbl'
         /\ exists msg,
              LLMReview.save_new (Example.review 1 LLMReview.STAGE_1) tbl'
              = raise (IntegrityError msg)).
Proof.
  split.
  - eexists. split; [reflexivity|].
    apply (proj1 unique_together_enforced empty_table _ Example.bob_on_talk1 _).
    + reflexivity.
    + repeat split.
  - eexists. split; [reflexivity|].
    apply (proj1 (proj2 (proj2 unique_together_enforced)) empty_table _
             (Example.review 1 LLMReview.STAGE_1) _).
    + reflexivity.
    + repeat split.
Defined.

(** * More properties of the module *)

(** ** PrimarySpeaker *)

Lemma primary_eq_true (a b : PrimarySpeaker.t) :
  PrimarySpeaker.__eq__ a (Primary b) = true <->
  same_user (PrimarySpeaker.user a) (PrimarySpeaker.user b)
  /\ same_proposal (PrimarySpeaker.proposal a) (PrimarySpeaker.proposal b).
Proof.
  unfold Primary, PrimarySpeaker.__eq__.
  now rewrite andb_true_iff, User_eq_spec, proposal_eq_spec.
Qed.

(** X1: [PrimarySpeaker.__eq__] is an equivalence on primary speakers: every
    wrapper equals itself, the comparison is symmetric, and it is
    transitive. *)
Theorem primary_speaker_eq_equivalence :
  (forall a, PrimarySpeaker.__eq__ a (Primary a) = true)
  /\ (forall a b,
         PrimarySpeaker.__eq__ a (Primary b) = PrimarySpeaker.__eq__ b (Primary a))
  /\ (forall a b c,
         PrimarySpeaker.__eq__ a (Primary b) = true ->
         PrimarySpeaker.__eq__ b (Primary c) = true ->
         PrimarySpeaker.__eq__ a (Primary c) = true).
Proof.
  assert (S : forall p q, same_proposal p q -> same_proposal q p).
  { intros [p|] [q|]; simpl; intuition congruence. }
  assert (T : forall p q r,
             same_proposal p q -> same_proposal q r -> same_proposal p r).
  { intros [p|] [q|] [r|]; simpl; intuition congruence. }
  split; [|split].
  - intros a. apply primary_eq_true. split; [reflexivity|].
    destruct (PrimarySpeaker.proposal a); simpl; auto.
  - intros a b.
    destruct (PrimarySpeaker.__eq__ a (Primary b)) eqn:E1,
      (PrimarySpeaker.__eq__ b (Primary a)) eqn:E2; try reflexivity.
    + apply primary_eq_true in E1. destruct E1 as [U P].
      assert (PrimarySpeaker.__eq__ b (Primary a) = true) as C; [|congruence].
      apply primary_eq_true. split; [now symmetry | now apply S].
    + apply primary_eq_true in E2. destruct E2 as [U P].
      assert (PrimarySpeaker.__eq__ a (Primary b) = true) as C; [|congruence].
      apply primary_eq_true. split; [now symmetry | now apply S].
  - intros a b c E1 E2.
    apply primary_eq_true in E1. apply primary_eq_true in E2.
    destruct E1 as [U1 P1], E2 as [U2 P2].
    apply primary_eq_true. split.
    + unfold same_user in *. congruence.
    + eapply T; eauto.
Qed.

Lemma primary_speaker_eq_equivalence_witness :
  PrimarySpeaker.__eq__ (primary_of Example.talk1)
    (Primary {| PrimarySpeaker._proposal := Some Example.talk1;
                PrimarySpeaker._user := Example.alice |}) = true.
Proof.
  apply (proj2 (proj2 primary_speaker_eq_equivalence)
           _ (primary_of Example.talk1) _); reflexivity.
Defined.

(** X2: when both a proposal and a user are given, the wrapper keeps the
    given user, not the proposal's submitter; it then equals the wrapper
    built from the proposal alone exactly when the given user is the
    submitter. *)
Theorem init_given_user_wins (p : AbstractProposal.t) (u : User.t) :
  exists both alone,
    PrimarySpeaker.__init__ (Some p) (Some u) = Ok both
    /\ PrimarySpeaker.__init__ (Some p) None = Ok alone
    /\ PrimarySpeaker.user both = u
    /\ PrimarySpeaker.proposal both = Some p
    /\ (PrimarySpeaker.__eq__ both (Primary alone) = true
        <-> same_user u (AbstractProposal.submitter p)).
Proof.
  do 2 eexists. rewrite !init_with_proposal.
  split; [reflexivity | split; [reflexivity|]].
  split; [reflexivity | split; [reflexivity|]].
  rewrite primary_eq_true. simpl. intuition.
Qed.

(** ** Completion metrics *)

Lemma filled_1_iff (s : string) : filled s = 1 <-> s <> "".
Proof. destruct s; simpl; split; intros; congruence || lia. Qed.

Lemma filled_0_iff (s : string) : filled s = 0 <-> s = "".
Proof. destruct s; simpl; split; intros; congruence || lia. Qed.

Lemma finish_percentage_eq (self : AbstractProposal.t) :
  finish_percentage self = Ok (20 * finished_fields_count self).
Proof.
  unfold finish_percentage, floordiv.
  change (must_fill_fields_count self) with 5.
  change (5 =? 0) with false. cbv iota. f_equal.
  replace (100 * finished_fields_count self)
    with (20 * finished_fields_count self * 5) by lia.
  apply Z.div_mul. lia.
Qed.

(** X3: [finish_percentage] is 100 exactly when all five mandatory fields are
    non-empty, which is when [unfinished_fields_count] is 0; it is 0 exactly
    when all five are empty; finished and unfinished always add up to
    [must_fill_fields_count]. *)
Theorem finish_percentage_extremes (self : AbstractProposal.t) :
  (finish_percentage self = Ok 100 <->
   AbstractProposal.abstract self <> ""
   /\ AbstractProposal.objective self <> ""
   /\ AbstractProposal.supplementary self <> ""
   /\ AbstractProposal.detailed_description self <> ""
   /\ AbstractProposal.outline self <> "")
  /\ (finish_percentage self = Ok 100 <-> unfinished_fields_count self = 0)
  /\ (finish_percentage self = Ok 0 <->
      AbstractProposal.abstract self = ""
      /\ AbstractProposal.objective self = ""
      /\ AbstractProposal.supplementary self = ""
      /\ AbstractProposal.detailed_description self = ""
      /\ AbstractProposal.outline self = "")
  /\ finished_fields_count self + unfinished_fields_count self
     = must_fill_fields_count self.
Proof.
  rewrite finish_percentage_eq. unfold unfinished_fields_count.
  change (must_fill_fields_count self) with 5.
  rewrite finished_fields_count_eq.
  rewrite <- !filled_1_iff, <- !filled_0_iff.
  pose proof (filled_range (AbstractProposal.abstract self)).
  pose proof (filled_range (AbstractProposal.objective self)).
  pose proof (filled_range (AbstractProposal.supplementary self)).
  pose proof (filled_range (AbstractProposal.detailed_description self)).
  pose proof (filled_range (AbstractProposal.outline self)).
  assert (I : forall x y : Z, Ok x = Ok y <-> x = y).
  { intros x y. split; [intros H'; now inversion H' | congruence]. }
  rewrite !I. repeat split; lia.
Qed.

(** ** The speaker composite, further *)

(** X4: the number of speakers that [speakers] yields is [speaker_count],
    and it is at least 1. *)
Theorem speakers_length_is_speaker_count (db : Database)
    (self : AbstractProposal.instance) :
  precomputed_ok db self ->
  exists l n,
    answer (speakers db self) = Ok l
    /\ answer (speaker_count db self) = Ok n
    /\ Z.of_nat (List.length l) = n
    /\ 1 <= n.
Proof.
  intros ok. do 2 eexists.
  split; [now apply speakers_answer|].
  split; [now apply speaker_count_answer|].
  simpl List.length. rewrite length_map.
  rewrite (Permutation_length (order_by_perm _ _ _)). split; lia.
Qed.

Lemma speakers_length_is_speaker_count_witness :
  precomputed_ok Example.db Example.talk1_counted
  /\ exists l n,
       answer (speakers Example.db Example.talk1_counted) = Ok l
       /\ answer (speaker_count Example.db Example.talk1_counted) = Ok n
       /\ Z.of_nat (List.length l) = n
       /\ 1 <= n.
Proof.
  split; [exact talk1_counted_ok|].
  exact (speakers_length_is_speaker_count Example.db Example.talk1_counted
           talk1_counted_ok).
Defined.




Lemma related_row_spec (db : Database) (p : AbstractProposal.t)
    (a : AdditionalSpeaker.t) :
  In a (additionalspeaker_set db p) <->
  In a (additionalspeaker_table db)
  /\ AdditionalSpeaker.proposal_type a
     = contenttypes db (AbstractProposal.concrete_model p)
  /\ AdditionalSpeaker.proposal_id a = AbstractProposal.pk p.
Proof.
  unfold additionalspeaker_set.
  now rewrite filter_In, andb_true_iff, !Z.eqb_eq.
Qed.

(** X7: a co-speaker row is among the speakers of a proposal exactly when it
    is stored, refers to this proposal by content type and id, and is not
    cancelled; its [status] plays no part, so a pending or declined
    co-speaker is yielded too. *)
Theorem yielded_iff_related_and_not_cancelled (db : Database)
    (self : AbstractProposal.instance) :
  precomputed_ok db self ->
  exists l,
    answer (speakers db self) = Ok l
    /\ forall a,
         In (Additional a) l <->
         In a (additionalspeaker_table db)
         /\ AdditionalSpeaker.proposal_type a
            = contenttypes db
                (AbstractProposal.concrete_model (AbstractProposal.row self))
         /\ AdditionalSpeaker.proposal_id a
            = AbstractProposal.pk (AbstractProposal.row self)
         /\ AdditionalSpeaker.cancelled a = false.
Proof.
  intros ok. eexists. split; [now apply speakers_answer|].
  intros a.
  assert (In (Additional a)
            (Primary (primary_of (AbstractProposal.row self))
             :: map Additional
                  (order_by AdditionalSpeaker.column
                     AdditionalSpeaker.Meta.ordering
                     (non_cancelled
                        (additionalspeaker_set db (AbstractProposal.row self)))))
          <-> In a (non_cancelled
                      (additionalspeaker_set db (AbstractProposal.row self))))
    as E.
  { split.
    - intros [H|H]; [discriminate H|].
      apply in_map_iff in H. destruct H as [x [Hx H]].
      inversion Hx; subst x.
      exact (Permutation_in a (order_by_perm _ _ _) H).
    - intros H. right. apply in_map.
      exact (Permutation_in a (Permutation_sym (order_by_perm _ _ _)) H). }
  rewrite E. unfold non_cancelled.
  rewrite filter_In, related_row_spec, negb_true_iff. tauto.
Qed.

Lemma yielded_iff_related_and_not_cancelled_witness :
  precomputed_ok Example.db Example.talk1_prefetched
  /\ exists l,
       answer (speakers Example.db Example.talk1_prefetched) = Ok l
       /\ forall a,
            In (Additional a) l <->
            In a (additionalspeaker_table Example.db)
            /\ AdditionalSpeaker.proposal_type a = 7
            /\ AdditionalSpeaker.proposal_id a = 1
            /\ AdditionalSpeaker.cancelled a = false.
Proof.
  split; [exact talk1_prefetched_ok|].
  exact (yielded_iff_related_and_not_cancelled Example.db
           Example.talk1_prefetched talk1_prefetched_ok).
Defined.

Lemma filter_map_swap {A B : Type} (g : A -> B) (P : B -> bool) (l : list A) :
  filter P (map g l) = map g (filter (fun a => P (g a)) l).
Proof.
  induction l as [|a l IH]; simpl; [reflexivity|].
  destruct (P (g a)); simpl; now rewrite IH.
Qed.

Section OrderByMap.
Context {A : Type}.
Variable column : string -> A -> value.
Variable ordering : list string.
Variable g : A -> A.
Hypothesis same_leb :
  forall a b, row_leb column ordering (g a) (g b) = row_leb column ordering a b.

Lemma insert_sorted_map (a : A) (l : list A) :
  insert_sorted column ordering (g a) (map g l)
  = map g (insert_sorted column ordering a l).
Proof.
  induction l as [|b l IH]; simpl; [reflexivity|].
  rewrite same_leb. destruct (row_leb column ordering a b); simpl.
  - reflexivity.
  - now rewrite IH.
Qed.

Lemma order_by_map (l : list A) :
  order_by column ordering (map g l) = map g (order_by column ordering l).
Proof.
  induction l as [|a l IH]; simpl; [reflexivity|].
  rewrite IH. apply insert_sorted_map.
Qed.

End OrderByMap.

Lemma restatus_related (f : AdditionalSpeaker.t -> string) (db : Database)
    (p : AbstractProposal.t) :
  non_cancelled (additionalspeaker_set (restatus f db) p)
  = map (with_status f) (non_cancelled (additionalspeaker_set db p)).
Proof.
  unfold non_cancelled, additionalspeaker_set, restatus. simpl.
  now rewrite !filter_map_swap.
Qed.

(** X8: the [status] of co-speaker rows plays no part: after any change of
    statuses [speaker_count] is what it was, and [speakers] yields the same
    rows in the same order, each with its new status. *)
Theorem status_plays_no_part (db : Database) (f : AdditionalSpeaker.t -> string)
    (p : AbstractProposal.t) :
  answer (speaker_count (restatus f db) (AbstractProposal.loaded p))
  = answer (speaker_count db (AbstractProposal.loaded p))
  /\ exists l,
       answer (speakers db (AbstractProposal.loaded p))
       = Ok (Primary (primary_of p) :: map Additional l)
       /\ answer (speakers (restatus f db) (AbstractProposal.loaded p))
          = Ok (Primary (primary_of p)
                :: map Additional (map (with_status f) l)).
Proof.
  split.
  - rewrite !speaker_count_answer by apply loaded_precomputed_ok. simpl.
    now rewrite restatus_related, length_map.
  - eexists. rewrite !speakers_answer by apply loaded_precomputed_ok. simpl.
    split; [reflexivity|].
    rewrite restatus_related, order_by_map; reflexivity.
Qed.

(** ** Unique rows *)

Lemma NoDup_map_filter {A B : Type} (f : A -> B) (P : A -> bool) (l : list A) :
  NoDup (map f l) -> NoDup (map f (filter P l)).
Proof.
  induction l as [|a l IH]; simpl; intros N; [constructor|].
  inversion N as [|x xs Hnot N']; subst.
  destruct (P a); simpl; [constructor|]; auto.
  intros H. apply Hnot. apply in_map_iff in H. destruct H as [b [E Hb]].
  apply filter_In in Hb. rewrite <- E. apply in_map. tauto.
Qed.

Lemma NoDup_map_coarser {A B C : Type} (f : A -> B) (g : A -> C) (l : list A) :
  (forall a b, In a l -> In b l -> g a = g b -> f a = f b) ->
  NoDup (map f l) -> NoDup (map g l).
Proof.
  induction l as [|a l IH]; simpl; intros H N; [constructor|].
  inversion N as [|x xs Hnot N']; subst. constructor.
  - intros Hin. apply Hnot. apply in_map_iff in Hin.
    destruct Hin as [b [E Hb]]. rewrite (H a b); auto. now apply in_map.
  - apply IH; auto.
Qed.

Lemma NoDup_map_In_eq {A B : Type} (f : A -> B) (l : list A) (a b : A) :
  NoDup (map f l) -> In a l -> In b l -> f a = f b -> a = b.
Proof.
  induction l as [|x l IH]; simpl; intros N Ha Hb E; [contradiction|].
  inversion N as [|y ys Hnot N']; subst.
  destruct Ha as [->|Ha], Hb as [->|Hb]; auto.
  - exfalso. apply Hnot. rewrite E. now apply in_map.
  - exfalso. apply Hnot. rewrite <- E. now apply in_map.
Qed.

(** X9: when the stored rows respect the unique constraint of
    [AdditionalSpeaker], no user is yielded twice among the additional
    speakers of a proposal. *)
Theorem no_user_twice_among_additionals (db : Database)
    (self : AbstractProposal.instance) :
  keys_distinct AdditionalSpeaker.column AdditionalSpeakerTable.constraints
    (additionalspeaker_table db) ->
  precomputed_ok db self ->
  exists primary additionals,
    answer (speakers db self) = Ok (Primary primary :: map Additional additionals)
    /\ NoDup (map (fun a => User.pk (AdditionalSpeaker.user a)) additionals).
Proof.
  intros K ok. do 2 eexists. split; [now apply speakers_answer|].
  eapply Permutation_NoDup.
  { apply Permutation_map, Permutation_sym, order_by_perm. }
  specialize (K _ (or_introl eq_refl)).
  unfold non_cancelled.
  apply NoDup_map_coarser
    with (f := unique_key AdditionalSpeaker.column
                 AdditionalSpeaker.Meta.unique_together).
  - intros a b Ha Hb E. rewrite !invitation_key.
    apply filter_In in Ha, Hb. destruct Ha as [Ha _], Hb as [Hb _].
    apply related_row_spec in Ha, Hb.
    destruct Ha as [_ [Ta Ia]], Hb as [_ [Tb Ib]]. congruence.
  - apply NoDup_map_filter. unfold additionalspeaker_set.
    now apply NoDup_map_filter.
Qed.

Lemma no_user_twice_among_additionals_witness :
  keys_distinct AdditionalSpeaker.column AdditionalSpeakerTable.constraints
    (additionalspeaker_table Example.db)
  /\ precomputed_ok Example.db Example.talk1_annotated
  /\ exists primary additionals,
       answer (speakers Example.db Example.talk1_annotated)
       = Ok (Primary primary :: map Additional additionals)
       /\ NoDup (map (fun a => User.pk (AdditionalSpeaker.user a)) additionals).
Proof.
  assert (keys_distinct AdditionalSpeaker.column
            AdditionalSpeakerTable.constraints
            (additionalspeaker_table Example.db)) as K.
  { intros group [<-|[]]. simpl.
    repeat (constructor;
            [simpl; intros H;
             repeat (destruct H as [H|H]; [discriminate H|]); exact H|]).
    constructor. }
  split; [exact K | split; [exact talk1_annotated_ok|]].
  exact (no_user_twice_among_additionals Example.db Example.talk1_annotated K
           talk1_annotated_ok).
Defined.

(** ** The order of the stored rows *)

Lemma filter_Permutation {A : Type} (P : A -> bool) (l l' : list A) :
  Permutation l l' -> Permutation (filter P l) (filter P l').
Proof.
  induction 1 as [|x l l' _ IH|x y l|l l' l'' _ IH1 _ IH2]; simpl.
  - constructor.
  - destruct (P x); [now constructor | assumption].
  - destruct (P x), (P y); try apply Permutation_refl. apply perm_swap.
  - eapply perm_trans; eassumption.
Qed.

Lemma sorted_Permutation_eq {A : Type} (R : A -> A -> Prop) (l1 l2 : list A) :
  (forall a b, In a l1 -> In b l1 -> R a b -> R b a -> a = b) ->
  StronglySorted R l1 -> StronglySorted R l2 -> Permutation l1 l2 -> l1 = l2.
Proof.
  revert l2. induction l1 as [|a l1 IH]; intros l2 Anti S1 S2 P.
  - apply Permutation_nil in P. now subst.
  - destruct l2 as [|b l2].
    { apply Permutation_sym, Permutation_nil in P. discriminate P. }
    inversion S1 as [|x xs S1' F1]; subst.
    inversion S2 as [|y ys S2' F2]; subst.
    assert (a = b) as ->.
    { assert (In a (b :: l2)) as Ha
          by (apply (Permutation_in a P); now left).
      assert (In b (a :: l1)) as Hb
          by (apply (Permutation_in b (Permutation_sym P)); now left).
      destruct Ha as [Ha|Ha]; [now symmetry|].
      destruct Hb as [Hb|Hb]; [assumption|].
      rewrite Forall_forall in F1, F2.
      apply Anti; [now left | now right | now apply F1 | now apply F2]. }
    f_equal. apply IH; auto.
    + intros x y Hx Hy. apply Anti; now right.
    + now apply Permutation_cons_inv in P.
Qed.

Lemma ordering_le_antisym_pk (a b : AdditionalSpeaker.t) :
  ordering_le a b -> ordering_le b a ->
  AdditionalSpeaker.pk a = AdditionalSpeaker.pk b.
Proof. unfold ordering_le. lia. Qed.

(** X10: primary keys being unique, what [speakers] yields does not depend on
    the order in which the table holds its rows: two databases with the same
    rows and content types give the same speakers in the same order. *)
Theorem speakers_independent_of_row_order (db1 db2 : Database)
    (p : AbstractProposal.t) :
  contenttypes db1 (AbstractProposal.concrete_model p)
  = contenttypes db2 (AbstractProposal.concrete_model p) ->
  Permutation (additionalspeaker_table db1) (additionalspeaker_table db2) ->
  NoDup (map AdditionalSpeaker.pk (additionalspeaker_table db1)) ->
  answer (speakers db1 (AbstractProposal.loaded p))
  = answer (speakers db2 (AbstractProposal.loaded p)).
Proof.
  intros C P N.
  rewrite !speakers_answer by apply loaded_precomputed_ok. simpl.
  do 3 f_equal.
  apply sorted_Permutation_eq with (R := ordering_le).
  - intros a b Ha Hb Rab Rba.
    apply (Permutation_in a (order_by_perm _ _ _)) in Ha.
    apply (Permutation_in b (order_by_perm _ _ _)) in Hb.
    unfold non_cancelled in Ha, Hb. apply filter_In in Ha, Hb.
    destruct Ha as [Ha _], Hb as [Hb _].
    apply related_row_spec in Ha, Hb.
    apply (NoDup_map_In_eq AdditionalSpeaker.pk (additionalspeaker_table db1));
      try tauto.
    now apply ordering_le_antisym_pk.
  - apply default_ordering_sorted.
  - apply default_ordering_sorted.
  - eapply perm_trans; [apply order_by_perm|].
    eapply perm_trans; [|apply Permutation_sym, order_by_perm].
    unfold non_cancelled, additionalspeaker_set.
    apply filter_Permutation. rewrite C. now apply filter_Permutation.
Qed.

Lemma speakers_independent_of_row_order_witness :
  Permutation (additionalspeaker_table Example.db)
    (additionalspeaker_table reversed_db)
  /\ NoDup (map AdditionalSpeaker.pk (additionalspeaker_table Example.db))
  /\ answer (speakers Example.db (AbstractProposal.loaded Example.talk1))
     = answer (speakers reversed_db (AbstractProposal.loaded Example.talk1)).
Proof.
  assert (NoDup (map AdditionalSpeaker.pk (additionalspeaker_table Example.db)))
    as N.
  { simpl.
    repeat (constructor;
            [simpl; intros H;
             repeat (destruct H as [H|H]; [discriminate H|]); exact H|]).
    constructor. }
  split; [apply Permutation_rev | split; [exact N|]].
  exact (speakers_independent_of_row_order Example.db reversed_db Example.talk1
           eq_refl (Permutation_rev _) N).
Defined.

(** ** The query filters, further *)

Lemma filter_filter_comm {A : Type} (P Q : A -> bool) (l : list A) :
  filter P (filter Q l) = filter Q (filter P l).
Proof.
  induction l as [|a l IH]; simpl; [reflexivity|].
  destruct (P a) eqn:Pa, (Q a) eqn:Qa; simpl;
    rewrite ?Pa, ?Qa, IH; reflexivity.
Qed.

Lemma flat_map_singleton_repeat {A B : Type} (x : B) (l : list A) :
  flat_map (fun _ => [x]) l = repeat x (List.length l).
Proof. induction l as [|a l IH]; simpl; [reflexivity | now rewrite IH]. Qed.

Section FiltersFurther.
Variable db : Database.
Variable cospeaking : User.t -> list AdditionalSpeaker.t.

(** X11: [filter_viewable] holds exactly the proposals of the collection that
    the user submitted or co-speaks, cancelled ones included;
    [filter_reviewable] holds exactly those that are not cancelled and have
    neither relation to the user. *)
Theorem viewable_and_reviewable_exactly (self : ProposalQuerySet.t)
    (u : User.t) (p : AbstractProposal.t) :
  (In p (ProposalQuerySet.filter_viewable db cospeaking self u) <->
   In p self /\ (submitted_by u p \/ linked_cospeaker db cospeaking u p))
  /\ (In p (ProposalQuerySet.filter_reviewable db cospeaking self u) <->
      In p self
      /\ AbstractProposal.cancelled p = false
      /\ ~ submitted_by u p
      /\ ~ linked_cospeaker db cospeaking u p).
Proof. split; [apply filter_viewable_In | apply filter_reviewable_In]. Qed.

(** X12: for a user who submitted none of the proposals and holds no
    co-speaker record, [filter_viewable] is empty and [filter_reviewable] is
    the collection without its cancelled proposals, in the same order. *)
Theorem stranger_views_nothing_reviews_all (self : ProposalQuerySet.t)
    (u : User.t) :
  (forall p, In p self -> ~ submitted_by u p) ->
  cospeaking u = [] ->
  ProposalQuerySet.filter_viewable db cospeaking self u = []
  /\ ProposalQuerySet.filter_reviewable db cospeaking self u
     = filter (fun p => negb (AbstractProposal.cancelled p)) self.
Proof.
  intros NS E. split.
  - destruct (ProposalQuerySet.filter_viewable db cospeaking self u)
      as [|p l] eqn:V; [reflexivity|].
    assert (In p (ProposalQuerySet.filter_viewable db cospeaking self u)) as H
        by (rewrite V; now left).
    apply filter_viewable_In in H. destruct H as [Hp [H|[a [b [_ [Hb _]]]]]].
    + now apply NS in Hp.
    + rewrite E in Hb. contradiction.
  - unfold ProposalQuerySet.filter_reviewable. apply filter_ext_in.
    intros p Hp. f_equal.
    assert (ProposalQuerySet.Q_submitter u p = false) as ->.
    { apply not_true_iff_false. rewrite Q_submitter_spec. now apply NS. }
    assert (existsb (fun a => ProposalQuerySet.pk_in a (cospeaking u))
              (additionalspeaker_set db p) = false) as ->.
    { apply not_true_iff_false. rewrite related_cospeaker_spec.
      intros [a [b [_ [Hb _]]]]. rewrite E in Hb. contradiction. }
    now destruct (AbstractProposal.cancelled p).
Qed.

Lemma joined_rows_kept (u : User.t) (p : AbstractProposal.t) :
  flat_map
    (fun j =>
       if ProposalQuerySet.Q_submitter u p
          || ProposalQuerySet.Q_cospeaker cospeaking u j
       then [p] else [])
    (ProposalQuerySet.left_outer_join db p)
  = repeat p (viewable_rows db cospeaking u p).
Proof.
  unfold viewable_rows, ProposalQuerySet.left_outer_join.
  fold (ProposalQuerySet.Q_submitter u p).
  destruct (ProposalQuerySet.Q_submitter u p); cbn [orb].
  - destruct (additionalspeaker_set db p) as [|a l].
    + reflexivity.
    + rewrite flat_map_singleton_repeat, length_map. reflexivity.
  - destruct (additionalspeaker_set db p) as [|a l]; [reflexivity|].
    generalize (a :: l). intros l'.
    induction l' as [|x l' IH]; simpl; [reflexivity|].
    rewrite IH. unfold ProposalQuerySet.pk_in.
    now destruct (existsb _ (cospeaking u)).
Qed.

(** X13: [filter_viewable] returns a proposal once per row of its join with
    the co-speaker table that passes: a proposal the user submitted comes
    once per co-speaker row it has (once if it has none), another proposal
    once per row of it among the user's co-speaker records.
    [filter_reviewable] never repeats a proposal. *)
Theorem viewable_repeats_per_joined_row (self : ProposalQuerySet.t)
    (u : User.t) :
  ProposalQuerySet.filter_viewable db cospeaking self u
  = flat_map (fun p => repeat p (viewable_rows db cospeaking u p)) self
  /\ (NoDup self ->
      NoDup (ProposalQuerySet.filter_reviewable db cospeaking self u)).
Proof.
  split.
  - unfold ProposalQuerySet.filter_viewable. apply flat_map_ext.
    intros p. apply joined_rows_kept.
  - apply NoDup_filter.
Qed.

(** X14: [filter_accepted] and [filter_reviewable] can be chained in either
    order with the same result, and filtering accepted proposals twice is
    filtering them once. *)
Theorem accepted_reviewable_commute (self : ProposalQuerySet.t) (u : User.t) :
  ProposalQuerySet.filter_accepted
    (ProposalQuerySet.filter_reviewable db cospeaking self u)
  = ProposalQuerySet.filter_reviewable db cospeaking
      (ProposalQuerySet.filter_accepted self) u
  /\ ProposalQuerySet.filter_accepted (ProposalQuerySet.filter_accepted self)
     = ProposalQuerySet.filter_accepted self.
Proof.
  split.
  - apply filter_filter_comm.
  - unfold ProposalQuerySet.filter_accepted. induction self as [|p l IH]; simpl.
    + reflexivity.
    + destruct (Bool.eqb (AbstractProposal.cancelled p) false
                && match AbstractProposal.accepted p with
                   | Some b => Bool.eqb b true
                   | None => false
                   end) eqn:E; simpl; rewrite ?E, IH; reflexivity.
Qed.

End FiltersFurther.

Lemma stranger_views_nothing_reviews_all_witness :
  (forall p, In p [Example.talk1; Example.talk2; Example.talk4] ->
             ~ submitted_by Example.carol p)
  /\ ProposalQuerySet.filter_viewable Example.db (fun _ => [])
       [Example.talk1; Example.talk2; Example.talk4] Example.carol = []
  /\ ProposalQuerySet.filter_reviewable Example.db (fun _ => [])
       [Example.talk1; Example.talk2; Example.talk4] Example.carol
     = [Example.talk2; Example.talk4].
Proof.
  assert (forall p, In p [Example.talk1; Example.talk2; Example.talk4] ->
                    ~ submitted_by Example.carol p) as NS.
  { intros p [<-|[<-|[<-|[]]]] H; discriminate H. }
  split; [exact NS|].
  exact (stranger_views_nothing_reviews_all Example.db (fun _ => [])
           [Example.talk1; Example.talk2; Example.talk4] Example.carol NS
           eq_refl).
Defined.

Lemma viewable_repeats_per_joined_row_witness :
  NoDup Example.all_proposals
  /\ ProposalQuerySet.filter_viewable Example.db
       (cospeaking_info_set Example.db) Example.all_proposals Example.alice
     = [Example.talk1; Example.talk1; Example.talk1; Example.tutorial1]
  /\ NoDup (ProposalQuerySet.filter_reviewable Example.db
              (cospeaking_info_set Example.db) Example.all_proposals
              Example.alice).
Proof.
  assert (NoDup Example.all_proposals) as N.
  { repeat (constructor;
            [simpl; intros H;
             repeat (destruct H as [H|H]; [discriminate H|]); exact H|]).
    constructor. }
  split; [exact N | split].
  - rewrite (proj1 (viewable_repeats_per_joined_row Example.db
                      (cospeaking_info_set Example.db) Example.all_proposals
                      Example.alice)).
    reflexivity.
  - exact (proj2 (viewable_repeats_per_joined_row Example.db
                    (cospeaking_info_set Example.db) Example.all_proposals
                    Example.alice) N).
Defined.

(** ** TalkProposal: the duration label *)

Lemma dict_get_set (k v k' : string) (d : TalkProposalModel.dict) :
  TalkProposalModel.dict_get (TalkProposalModel.dict_set k v d) k'
  = if (k =? k')%string then Some v else TalkProposalModel.dict_get d k'.
Proof.
  induction d as [|[k0 v0] d IH]; simpl.
  - reflexivity.
  - destruct (String.eqb_spec k0 k) as [->|N]; simpl.
    + now destruct (k =? k')%string.
    + rewrite IH.
      destruct (String.eqb_spec k0 k') as [->|N'];
        destruct (String.eqb_spec k k') as [->|N'']; congruence.
Qed.

Lemma dict_get_fold (pairs : list (string * string))
    (d : TalkProposalModel.dict) (k : string) :
  TalkProposalModel.dict_get
    (fold_left
       (fun d kv => TalkProposalModel.dict_set (fst kv) (snd kv) d) pairs d)
    k
  = match last_label pairs k with
    | Some x => Some x
    | None => TalkProposalModel.dict_get d k
    end.
Proof.
  revert d. induction pairs as [|[k0 v0] rest IH]; intros d; simpl.
  - reflexivity.
  - rewrite IH, dict_get_set.
    destruct (last_label rest k); [reflexivity|].
    now destruct (k0 =? k)%string.
Qed.

Lemma dict_get_dict_of (pairs : list (string * string)) (k : string) :
  TalkProposalModel.dict_get (TalkProposalModel.dict_of pairs) k
  = last_label pairs k.
Proof.
  unfold TalkProposalModel.dict_of. rewrite dict_get_fold.
  now destruct (last_label pairs k).
Qed.

Lemma last_label_None (pairs : list (string * string)) (k : string) :
  last_label pairs k = None <-> forall v, ~ In (k, v) pairs.
Proof.
  induction pairs as [|[k0 v0] rest IH]; simpl.
  - split; auto.
  - destruct (last_label rest k) eqn:L.
    + split; [discriminate|]. intros H.
      apply IH. intros v Hv. apply (H v). now right.
    + destruct (String.eqb_spec k0 k) as [->|N].
      * split; [discriminate|]. intros H. exfalso. apply (H v0). now left.
      * split; [|reflexivity]. intros _ v [E|Hin].
        -- inversion E. congruence.
        -- revert Hin. now apply IH.
Qed.

(** X15: the first [get_duration_display] builds the dictionary from the
    configured choices and answers the label of the last choice whose value
    is the proposal's duration; it answers [None] exactly when no choice has
    that value. *)
Theorem duration_display_first_call (choices : list (string * string))
    (self : TalkProposalModel.t) :
  fst (TalkProposalModel.get_duration_display choices self
         TalkProposalModel.initial_class)
  = last_label choices (TalkProposalModel.duration self)
  /\ (fst (TalkProposalModel.get_duration_display choices self
             TalkProposalModel.initial_class) = None
      <-> forall label,
            ~ In (TalkProposalModel.duration self, label) choices).
Proof.
  assert (fst (TalkProposalModel.get_duration_display choices self
                 TalkProposalModel.initial_class)
          = last_label choices (TalkProposalModel.duration self)) as E.
  { unfold TalkProposalModel.get_duration_display,
      TalkProposalModel.duration_dict. simpl. apply dict_get_dict_of. }
  split; [exact E|]. rewrite E. apply last_label_None.
Qed.

(** X16: the dictionary is built once: after a first call, every later
    [get_duration_display] answers from the choices of the first call,
    whatever the choices configured by then, and leaves the class as it
    is. *)
Theorem duration_dict_built_once (first later : list (string * string))
    (a b : TalkProposalModel.t) :
  let cls :=
    snd (TalkProposalModel.get_duration_display first a
           TalkProposalModel.initial_class) in
  TalkProposalModel.get_duration_display later b cls
  = (last_label first (TalkProposalModel.duration b), cls).
Proof.
  unfold TalkProposalModel.get_duration_display,
    TalkProposalModel.duration_dict. simpl.
  now rewrite dict_get_dict_of.
Qed.
